(** * TaskFlowAI front end: the plan request controller and the plan renderer

    A shallow embedding of [App.jsx] ([handleSubmit], [formatOutput],
    [ErrorBoundary], the page that [App] returns) and of
    [components/WorkflowGraph.jsx] ([WorkflowGraph], [getPriorityColor]),
    followed by the properties of the specification that were checked
    against them.

    Conventions of the embedding:
    - a JavaScript string is a [string] holding its UTF-8 bytes;
    - a JavaScript value is a [value]: what [JSON.parse] can return, and
      [undefined];
    - a number is the exact decimal that its literal denotes; rounding to a
      double is left out;
    - code that can throw lives in [result] (no state) or in [M] (the page
      state and the observable effects survive a throw). *)

From Stdlib Require Import String Ascii List ZArith NArith Bool Lia DecimalString.
From ExtLib Require Import Structures.Monad.
Import ListNotations.
Import MonadNotation.
Open Scope list_scope.
Open Scope string_scope.
Open Scope monad_scope.

(** ** Strings *)

Module Str.

Definition LF : ascii := "010"%char.
Definition QUOTE : ascii := "034"%char.
Definition BACKSLASH : ascii := "092"%char.

(** The one-character string [c], and the line feed written '\n' in the
    source. *)
Definition of_char (c : ascii) : string := String c "".
Definition nl : string := of_char LF.

(** [q s] is [s] with every apostrophe turned into a double quote, to write
    JSON texts legibly. *)
Fixpoint q (s : string) : string :=
  match s with
  | "" => ""
  | String c r => String (if Ascii.eqb c "'" then QUOTE else c) (q r)
  end.

(** [s.startsWith(p)] *)
Definition startsWith (s p : string) : bool := String.prefix p s.

(** [s.slice(n)], for [n >= 0] *)
Fixpoint slice (n : nat) (s : string) : string :=
  match n, s with
  | O, _ => s
  | S _, "" => ""
  | S n', String _ r => slice n' r
  end.

(** [s.split(sep)] for a separator of one character: the pieces between the
    separators, so never the empty list. *)
Fixpoint split (sep : ascii) (s : string) : list string :=
  match s with
  | "" => [""]
  | String c r =>
      if Ascii.eqb c sep then "" :: split sep r
      else match split sep r with
           | piece :: pieces => String c piece :: pieces
           | [] => [of_char c]
           end
  end.

Fixpoint rev_onto (s acc : string) : string :=
  match s with
  | "" => acc
  | String c r => rev_onto r (String c acc)
  end.

Definition rev (s : string) : string := rev_onto s "".

Definition bytes (l : list nat) : string :=
  string_of_list_ascii (map ascii_of_nat l).

(** What [String.prototype.trim] removes: WhiteSpace and LineTerminator of
    ECMAScript, each as its UTF-8 bytes. *)
Definition whitespace : list string :=
  map bytes
    [ [9]; [10]; [11]; [12]; [13]; [32];
      [194; 160];                                   (* U+00A0 *)
      [225; 154; 128];                              (* U+1680 *)
      [226; 128; 128]; [226; 128; 129]; [226; 128; 130]; [226; 128; 131];
      [226; 128; 132]; [226; 128; 133]; [226; 128; 134]; [226; 128; 135];
      [226; 128; 136]; [226; 128; 137]; [226; 128; 138]; (* U+2000..U+200A *)
      [226; 128; 168]; [226; 128; 169];             (* U+2028, U+2029 *)
      [226; 128; 175];                              (* U+202F *)
      [226; 129; 159];                              (* U+205F *)
      [227; 128; 128];                              (* U+3000 *)
      [239; 187; 191] ].                            (* U+FEFF *)

(** [s] without one leading occurrence of one of [tokens], if it has one. *)
Fixpoint strip_one (tokens : list string) (s : string) : option string :=
  match tokens with
  | [] => None
  | t :: ts =>
      if String.prefix t s then Some (slice (String.length t) s)
      else strip_one ts s
  end.

Fixpoint strip (tokens : list string) (fuel : nat) (s : string) : string :=
  match fuel with
  | O => s
  | S fuel' =>
      match strip_one tokens s with
      | Some r => strip tokens fuel' r
      | None => s
      end
  end.

Definition trimStart (s : string) : string :=
  strip whitespace (String.length s) s.

Definition trimEnd (s : string) : string :=
  rev (strip (map rev whitespace) (String.length s) (rev s)).

(** [s.trim()] *)
Definition trim (s : string) : string := trimEnd (trimStart s).

(** The decimal numeral of a natural number. *)
Definition of_N (n : N) : string := NilZero.string_of_uint (N.to_uint n).

Fixpoint repeat (c : ascii) (n : nat) : string :=
  match n with
  | O => ""
  | S n' => String c (repeat c n')
  end.

Definition take (n : nat) (s : string) : string := String.substring 0 n s.

End Str.

Import Str.

(** ** Values *)

(** A number: (-1)^[negative] * [mantissa] * 10^[exponent]. *)
Record number := Number {
  negative : bool;
  mantissa : N;
  exponent : Z
}.

Definition Number_of_N (n : N) : number := Number false n 0.

#[warnings="-register-all"]
Inductive value :=
| VUndefined
| VNull
| VBool (b : bool)
| VNum (n : number)
| VStr (s : string)
| VArr (items : list value)
| VObj (fields : list (string * value)).

(** In an object a later entry for a key overrides an earlier one, as when
    [JSON.parse] reads a key twice. *)
Fixpoint lookup (k : string) (fields : list (string * value)) : option value :=
  match fields with
  | [] => None
  | (k', v) :: rest =>
      match lookup k rest with
      | Some v' => Some v'
      | None => if String.eqb k k' then Some v else None
      end
  end.

Inductive exn :=
| SyntaxError (msg : string)
| TypeError (msg : string)
| Error (msg : string)
| NetworkError (msg : string).

(** [e.message] *)
Definition message (e : exn) : string :=
  match e with
  | SyntaxError m | TypeError m | Error m | NetworkError m => m
  end.

(** Code that returns or throws, and keeps no state. *)
Definition result (A : Type) : Type := (exn + A)%type.

#[export] Instance Monad_result : Monad result := {
  ret := fun _ a => inr a;
  bind := fun _ _ m f => match m with inl e => inl e | inr a => f a end
}.

Definition throw {A : Type} (e : exn) : result A := inl e.

Module JS.

(** ToBoolean *)
Definition truthy (v : value) : bool :=
  match v with
  | VUndefined | VNull => false
  | VBool b => b
  | VNum n => negb (N.eqb (mantissa n) 0)
  | VStr s => negb (String.eqb s "")
  | VArr _ | VObj _ => true
  end.

Definition falsy (v : value) : bool := negb (truthy v).

Definition nullish (v : value) : bool :=
  match v with
  | VUndefined | VNull => true
  | _ => false
  end.

(** [v.k] when [v] is neither null nor undefined, for a name [k] that no
    prototype defines: all of [status], [agent], [message], [data],
    [formatted_output], [summary], [total_tasks],
    [estimated_duration_days], [markdown], [mermaid_gantt],
    [dependency_tasks], [id], [name], [category], [priority], and
    [length] on an object. *)
Definition prop (v : value) (k : string) : value :=
  match v with
  | VObj fields =>
      match lookup k fields with
      | Some x => x
      | None => VUndefined
      end
  | _ => VUndefined
  end.

(** [v.k]: reading a property of null or undefined throws. *)
Definition get (v : value) (k : string) : result value :=
  if nullish v
  then throw (TypeError ("Cannot read properties of null or undefined (reading '" ++ k ++ "')"))
  else ret (prop v k).

(** [v === s] for a string literal [s] *)
Definition is_string (v : value) (s : string) : bool :=
  match v with
  | VStr s' => String.eqb s' s
  | _ => false
  end.

Fixpoint trailing_zeros (s : string) : nat :=
  match s with
  | String c r => if Ascii.eqb c "0" then S (trailing_zeros r) else O
  | "" => O
  end.

(** Number::toString in radix 10. *)
Definition Number_toString (x : number) : string :=
  if N.eqb (mantissa x) 0 then "0"
  else
    let ds := of_N (mantissa x) in
    let t := trailing_zeros (Str.rev ds) in
    let s := take (String.length ds - t) ds in
    let k := Z.of_nat (String.length s) in
    let n := (k + exponent x + Z.of_nat t)%Z in
    (if negative x then "-" else "") ++
    (if ((k <=? n) && (n <=? 21))%Z then s ++ Str.repeat "0" (Z.to_nat (n - k))
     else if ((0 <? n) && (n <=? 21))%Z then
       take (Z.to_nat n) s ++ "." ++ slice (Z.to_nat n) s
     else if ((-6 <? n) && (n <=? 0))%Z then
       "0." ++ Str.repeat "0" (Z.to_nat (- n)) ++ s
     else
       let e := (n - 1)%Z in
       let es := (if (e <? 0)%Z then "-" else "+") ++ of_N (Z.abs_N e) in
       if (k =? 1)%Z then s ++ "e" ++ es
       else take 1 s ++ "." ++ slice 1 s ++ "e" ++ es).

(** ToString, as a template literal and [+=] on a string apply it.  An
    array prints its items separated by commas, null and undefined items
    as nothing.  An object that [JSON.parse] made prints through
    [Object.prototype.toString], unless it has an entry named [toString]
    of its own: that entry is not a function, nothing is left to call,
    and the conversion throws. *)
Fixpoint ToString (v : value) : result string :=
  match v with
  | VUndefined => ret "undefined"
  | VNull => ret "null"
  | VBool true => ret "true"
  | VBool false => ret "false"
  | VNum n => ret (Number_toString n)
  | VStr s => ret s
  | VArr items =>
      (fix join (l : list value) : result string :=
         match l with
         | [] => ret ""
         | x :: rest =>
             head <- (if nullish x then ret "" else ToString x) ;;
             match rest with
             | [] => ret head
             | _ :: _ => tail <- join rest ;; ret (head ++ "," ++ tail)
             end
         end) items
  | VObj fields =>
      match lookup "toString" fields with
      | Some _ => throw (TypeError "Cannot convert object to primitive value")
      | None => ret "[object Object]"
      end
  end.

End JS.

(** ** JSON.parse *)

Module JSON.

Definition is_ws (c : ascii) : bool :=
  Ascii.eqb c " " || Ascii.eqb c "009" || Ascii.eqb c "010" || Ascii.eqb c "013".

Fixpoint skip_ws (s : string) : string :=
  match s with
  | String c r => if is_ws c then skip_ws r else s
  | "" => s
  end.

Definition digit (c : ascii) : option N :=
  let n := N_of_ascii c in
  if ((48 <=? n) && (n <=? 57))%N then Some (n - 48)%N else None.

Definition hex (c : ascii) : option N :=
  let n := N_of_ascii c in
  if ((48 <=? n) && (n <=? 57))%N then Some (n - 48)%N
  else if ((65 <=? n) && (n <=? 70))%N then Some (n - 55)%N
  else if ((97 <=? n) && (n <=? 102))%N then Some (n - 87)%N
  else None.

(** The longest run of digits at the head of [s]: its value on top of
    [acc], how many there are, and what follows. *)
Fixpoint digits (s : string) (acc : N) (count : nat) : N * nat * string :=
  match s with
  | String c r =>
      match digit c with
      | Some d => digits r (acc * 10 + d)%N (S count)
      | None => (acc, count, s)
      end
  | "" => (acc, count, s)
  end.

(** A number literal: an optional minus sign; then 0, or a digit other than
    0 and any digits; then optionally a point and at least one digit; then
    optionally e or E, an optional sign and at least one digit. *)
Definition parse_number (s : string) : option (number * string) :=
  let (neg, s1) :=
    match s with
    | String c r => if Ascii.eqb c "-" then (true, r) else (false, s)
    | "" => (false, s)
    end in
  let '(int, n_int, s2) := digits s1 0%N O in
  if (n_int =? 0)%nat then None
  else if String.prefix "0" s1 && negb (n_int =? 1)%nat then None
  else
    let frac :=
      match s2 with
      | String c r =>
          if Ascii.eqb c "." then
            let '(m, n_frac, s3) := digits r int O in
            if (n_frac =? 0)%nat then None else Some (m, n_frac, s3)
          else Some (int, O, s2)
      | "" => Some (int, O, s2)
      end in
    match frac with
    | None => None
    | Some (m, n_frac, s3) =>
        let no_exp := Some (Number neg m (- Z.of_nat n_frac), s3) in
        match s3 with
        | String c r =>
            if Ascii.eqb c "e" || Ascii.eqb c "E" then
              let (eneg, s4) :=
                match r with
                | String c' r' =>
                    if Ascii.eqb c' "-" then (true, r')
                    else if Ascii.eqb c' "+" then (false, r')
                    else (false, r)
                | "" => (false, r)
                end in
              let '(e, n_exp, s5) := digits s4 0%N O in
              if (n_exp =? 0)%nat then None
              else
                let e' := if eneg then (- Z.of_N e)%Z else Z.of_N e in
                Some (Number neg m (e' - Z.of_nat n_frac), s5)
            else no_exp
        | "" => no_exp
        end
    end.

(** What a string literal holds: bytes taken as they stand, and the code
    units written as \uXXXX. *)
Inductive item :=
| Byte (c : ascii)
| Unit (u : N).

Definition byte_of (n : N) : ascii := ascii_of_N n.

(** UTF-8 of a code point (of a lone surrogate too). *)
Definition utf8 (cp : N) : string :=
  if (cp <? 128)%N then of_char (byte_of cp)
  else if (cp <? 2048)%N then
    String (byte_of (192 + cp / 64)) (of_char (byte_of (128 + cp mod 64)))
  else if (cp <? 65536)%N then
    String (byte_of (224 + cp / 4096))
      (String (byte_of (128 + (cp / 64) mod 64))
         (of_char (byte_of (128 + cp mod 64))))
  else
    String (byte_of (240 + cp / 262144))
      (String (byte_of (128 + (cp / 4096) mod 64))
         (String (byte_of (128 + (cp / 64) mod 64))
            (of_char (byte_of (128 + cp mod 64))))).

Definition high_surrogate (u : N) : bool := ((55296 <=? u) && (u <=? 56319))%N.
Definition low_surrogate (u : N) : bool := ((56320 <=? u) && (u <=? 57343))%N.

Fixpoint encode (l : list item) : string :=
  match l with
  | [] => ""
  | Byte c :: rest => String c (encode rest)
  | Unit u :: rest =>
      match rest with
      | Unit u' :: rest' =>
          if high_surrogate u && low_surrogate u'
          then utf8 (65536 + (u - 55296) * 1024 + (u' - 56320)) ++ encode rest'
          else utf8 u ++ encode rest
      | _ => utf8 u ++ encode rest
      end
  end.

Definition escape (c : ascii) : option ascii :=
  if Ascii.eqb c QUOTE then Some QUOTE
  else if Ascii.eqb c BACKSLASH then Some BACKSLASH
  else if Ascii.eqb c "/" then Some "/"%char
  else if Ascii.eqb c "b" then Some "008"%char
  else if Ascii.eqb c "f" then Some "012"%char
  else if Ascii.eqb c "n" then Some "010"%char
  else if Ascii.eqb c "r" then Some "013"%char
  else if Ascii.eqb c "t" then Some "009"%char
  else None.

(** The items of a string literal whose opening quote has been read, and
    what follows its closing quote. *)
Fixpoint string_items (s : string) : option (list item * string) :=
  match s with
  | "" => None
  | String c r =>
      if Ascii.eqb c QUOTE then Some ([], r)
      else if (N_of_ascii c <? 32)%N then None
      else if Ascii.eqb c BACKSLASH then
        match r with
        | "" => None
        | String e r1 =>
            if Ascii.eqb e "u" then
              match r1 with
              | String h1 (String h2 (String h3 (String h4 r2))) =>
                  match hex h1, hex h2, hex h3, hex h4, string_items r2 with
                  | Some a, Some b, Some c', Some d, Some (l, r') =>
                      Some (Unit (((a * 16 + b) * 16 + c') * 16 + d)%N :: l, r')
                  | _, _, _, _, _ => None
                  end
              | _ => None
              end
            else
              match escape e, string_items r1 with
              | Some c', Some (l, r') => Some (Byte c' :: l, r')
              | _, _ => None
              end
        end
      else
        match string_items r with
        | Some (l, r') => Some (Byte c :: l, r')
        | None => None
        end
  end.

Definition parse_string (s : string) : option (string * string) :=
  match string_items s with
  | Some (l, r) => Some (encode l, r)
  | None => None
  end.

Definition literal (word : string) (v : value) (s : string)
  : option (value * string) :=
  if String.prefix word s then Some (v, slice (String.length word) s) else None.

(** What a parser answers: a value and the text that follows it. *)
Definition parsed : Type := option (value * string).

(** One value at the head of [s], given the parsers for what follows an
    opening bracket and an opening brace. *)
Definition value_at (elements : string -> list value -> parsed)
    (members : string -> list (string * value) -> parsed) (s : string) : parsed :=
  match skip_ws s with
  | "" => None
  | String c r as s' =>
      if Ascii.eqb c "{" then
        match skip_ws r with
        | String c' r' =>
            if Ascii.eqb c' "}" then Some (VObj [], r')
            else members r []
        | "" => None
        end
      else if Ascii.eqb c "[" then
        match skip_ws r with
        | String c' r' =>
            if Ascii.eqb c' "]" then Some (VArr [], r')
            else elements r []
        | "" => None
        end
      else if Ascii.eqb c QUOTE then
        match parse_string r with
        | Some (str, r') => Some (VStr str, r')
        | None => None
        end
      else if Ascii.eqb c "t" then literal "true" (VBool true) s'
      else if Ascii.eqb c "f" then literal "false" (VBool false) s'
      else if Ascii.eqb c "n" then literal "null" VNull s'
      else
        match parse_number s' with
        | Some (n, r') => Some (VNum n, r')
        | None => None
        end
  end.

(** The rest of an array after its opening bracket or a comma: one value,
    then a comma and more, or the closing bracket.  [acc] holds the items
    read so far, latest first. *)
Definition elements_at (one : string -> parsed)
    (elements : string -> list value -> parsed)
    (s : string) (acc : list value) : parsed :=
  match one s with
  | Some (v, r) =>
      match skip_ws r with
      | String c r' =>
          if Ascii.eqb c "," then elements r' (v :: acc)
          else if Ascii.eqb c "]" then Some (VArr (List.rev (v :: acc)), r')
          else None
      | "" => None
      end
  | None => None
  end.

(** The rest of an object after its opening brace or a comma: a key, a
    colon and a value, then a comma and more, or the closing brace. *)
Definition members_at (one : string -> parsed)
    (members : string -> list (string * value) -> parsed)
    (s : string) (acc : list (string * value)) : parsed :=
  match skip_ws s with
  | String c r =>
      if Ascii.eqb c QUOTE then
        match parse_string r with
        | Some (k, r1) =>
            match skip_ws r1 with
            | String c1 r2 =>
                if Ascii.eqb c1 ":" then
                  match one r2 with
                  | Some (v, r3) =>
                      match skip_ws r3 with
                      | String c3 r4 =>
                          if Ascii.eqb c3 "," then members r4 ((k, v) :: acc)
                          else if Ascii.eqb c3 "}"
                          then Some (VObj (List.rev ((k, v) :: acc)), r4)
                          else None
                      | "" => None
                      end
                  | None => None
                  end
                else None
            | "" => None
            end
        | None => None
        end
      else None
  | "" => None
  end.

(** The three parsers.  [fuel] bounds the calls that are made one inside
    the other; twice the length of the text is enough, see
    [parse_value_enough] below. *)
Fixpoint parse_value (fuel : nat) (s : string) : parsed :=
  match fuel with
  | O => None
  | S fuel' => value_at (parse_elements fuel') (parse_members fuel') s
  end

with parse_elements (fuel : nat) (s : string) (acc : list value) : parsed :=
  match fuel with
  | O => None
  | S fuel' => elements_at (parse_value fuel') (parse_elements fuel') s acc
  end

with parse_members (fuel : nat) (s : string) (acc : list (string * value)) : parsed :=
  match fuel with
  | O => None
  | S fuel' => members_at (parse_value fuel') (parse_members fuel') s acc
  end.

(** [JSON.parse(text)]: the value that [text] denotes, or a SyntaxError. *)
Definition parse (text : string) : result value :=
  match parse_value (2 * String.length text + 2) text with
  | Some (v, r) =>
      match skip_ws r with
      | "" => ret v
      | _ => throw (SyntaxError "Unexpected non-whitespace character after JSON")
      end
  | None => throw (SyntaxError "Unexpected token in JSON")
  end.

End JSON.

(** ** React: keys, and rendering inside an error boundary *)

Module React.

(** The key of an element: React keeps [key={v}] as the string '' + v,
    and keeps no key when [v] is undefined. *)
Definition key (v : value) : result (option string) :=
  match v with
  | VUndefined => ret None
  | _ => text <- JS.ToString v ;; ret (Some text)
  end.

(** What the [render] of a component with children returns: an element of
    its own, or [this.props.children]. *)
Inductive output (P : Type) :=
| Own (p : P)
| PropsChildren.

Arguments Own {P}.
Arguments PropsChildren {P}.

(** A class component that is an error boundary, by its methods. *)
Record boundary (S P : Type) := Boundary {
  getDerivedStateFromError : exn -> S;
  componentDidCatch : exn -> list (string * exn);
  render : S -> output P
}.

Arguments Boundary {S P}.
Arguments getDerivedStateFromError {S P}.
Arguments componentDidCatch {S P}.
Arguments render {S P}.

(** What is on the page where the boundary stands: the element of the
    boundary, or its children as rendered. *)
Inductive shown (P C : Type) :=
| Fallback (p : P)
| Child (c : C).

Arguments Fallback {P C}.
Arguments Child {P C}.

(** React renders the boundary and then, where the boundary returned its
    children, the children.  When they throw, React asks the boundary
    for the state that follows from the error, reports the error with
    [componentDidCatch] and renders the boundary again in that state; if
    the boundary returns its children once more, the error is not caught
    and goes up.  The result is the state of the boundary, what is shown
    (or the error that goes up) and what was written to the console. *)
Definition render_in {S P C : Type} (b : boundary S P) (this : S)
    (children : result C)
  : S * result (shown P C) * list (string * exn) :=
  match render b this with
  | Own p => (this, inr (Fallback p), [])
  | PropsChildren =>
      match children with
      | inr c => (this, inr (Child c), [])
      | inl e =>
          let this' := getDerivedStateFromError b e in
          match render b this' with
          | Own p => (this', inr (Fallback p), componentDidCatch b e)
          | PropsChildren => (this', inl e, [])
          end
      end
  end.

End React.

(** ** The page state and the effects of the controller *)

(** The state variables of [App]. *)
Record app_state := AppState {
  projectInput : string;
  loading : bool;
  planData : value;
  error : value;
  currentAgent : value;
  agentMessage : value
}.

(** [useState] of the source, before any event. *)
Definition initial (input : string) : app_state :=
  AppState input false VNull VNull VNull (VStr "").

Definition with_loading (b : bool) (s : app_state) : app_state :=
  AppState (projectInput s) b (planData s) (error s) (currentAgent s) (agentMessage s).
Definition with_planData (v : value) (s : app_state) : app_state :=
  AppState (projectInput s) (loading s) v (error s) (currentAgent s) (agentMessage s).
Definition with_error (v : value) (s : app_state) : app_state :=
  AppState (projectInput s) (loading s) (planData s) v (currentAgent s) (agentMessage s).
Definition with_currentAgent (v : value) (s : app_state) : app_state :=
  AppState (projectInput s) (loading s) (planData s) (error s) v (agentMessage s).
Definition with_agentMessage (v : value) (s : app_state) : app_state :=
  AppState (projectInput s) (loading s) (planData s) (error s) (currentAgent s) v.

(** The request that [fetch] sends; [project_statement] is the field of the
    object that [JSON.stringify] writes into the body. *)
Record request := Request {
  url : string;
  method : string;
  content_type : string;
  project_statement : string
}.

(** What the controller acts on: the page state, the requests sent so far,
    the number of calls of [reader.read()], and the lines written with
    [console.error] (latest first). *)
Record world := World {
  ui : app_state;
  requests : list request;
  reads : nat;
  console : list (string * exn)
}.

(** A response body: the text of each chunk as [decoder.decode] returns it
    (the decoder is called without the stream option, so each chunk is
    decoded on its own), and then either the end of the stream or a read
    that fails. *)
Record stream := Stream {
  chunks : list string;
  failure : option exn
}.

Record response := Response {
  status : N;
  body : option stream
}.

(** [response.ok]: the status is in the range 200 to 299. *)
Definition ok (r : response) : bool :=
  ((200 <=? status r) && (status r <=? 299))%N.

(** What the network does with the request. *)
Inductive network :=
| Responds (r : response)
| Unreachable (e : exn).

(** Code that acts on the world and returns or throws; the world as it is
    at the throw is kept. *)
Definition M (A : Type) : Type := world -> result A * world.

#[export] Instance Monad_M : Monad M := {
  ret := fun _ a w => (inr a, w);
  bind := fun _ _ m f w =>
    match m w with
    | (inr a, w') => f a w'
    | (inl e, w') => (inl e, w')
    end
}.

Definition lift {A : Type} (r : result A) : M A := fun w => (r, w).

Definition raise {A : Type} (e : exn) : M A := lift (throw e).

(** try { body } catch (e) { handler e } *)
Definition try_catch {A : Type} (body : M A) (handler : exn -> M A) : M A :=
  fun w =>
    match body w with
    | (inl e, w') => handler e w'
    | done => done
    end.

(** try { body } finally { cleanup } *)
Definition try_finally {A : Type} (body : M A) (cleanup : M unit) : M A :=
  fun w =>
    let (r, w') := body w in
    match cleanup w' with
    | (inr _, w'') => (r, w'')
    | (inl e, w'') => (inl e, w'')
    end.

(** The world after the page state has been updated with [f], and after a
    line has been written with [console.error]. *)
Definition updated (f : app_state -> app_state) (w : world) : world :=
  World (f (ui w)) (requests w) (reads w) (console w).

Definition logged (label : string) (e : exn) (w : world) : world :=
  World (ui w) (requests w) (reads w) ((label, e) :: console w).

Definition modify (f : app_state -> app_state) : M unit :=
  fun w => (inr tt, updated f w).

Definition setLoading (b : bool) : M unit := modify (with_loading b).
Definition setPlanData (v : value) : M unit := modify (with_planData v).
Definition setError (v : value) : M unit := modify (with_error v).
Definition setCurrentAgent (v : value) : M unit := modify (with_currentAgent v).
Definition setAgentMessage (v : value) : M unit := modify (with_agentMessage v).

Definition console_error (label : string) (e : exn) : M unit :=
  fun w => (inr tt, logged label e w).

(** [fetch(url, ...)]: the request goes out, and the network answers or the
    promise is rejected. *)
Definition fetch (net : network) (req : request) : M response :=
  fun w =>
    let w' := World (ui w) (req :: requests w) (reads w) (console w) in
    match net with
    | Responds r => (inr r, w')
    | Unreachable e => (inl e, w')
    end.

(** [response.body.getReader()]; the body of a response is null when the
    response has none. *)
Definition getReader (b : option stream) : M stream :=
  match b with
  | Some s => ret s
  | None => raise (TypeError "Cannot read properties of null (reading 'getReader')")
  end.

(** One call of [reader.read()]. *)
Definition count_read : M unit :=
  fun w => (inr tt, World (ui w) (requests w) (S (reads w)) (console w)).

Fixpoint forEach {A : Type} (f : A -> M unit) (l : list A) : M unit :=
  match l with
  | [] => ret tt
  | x :: rest => f x ;; forEach f rest
  end.

(** ** handleSubmit *)

(** [data.status === s] *)
Definition status_is (data : value) (s : string) : M bool :=
  v <- lift (JS.get data "status") ;;
  ret (JS.is_string v s).

(** The body of the [try] inside the loop, after [JSON.parse]. *)
Definition dispatch (data : value) : M unit :=
  running <- status_is data "running" ;;
  if running : bool then
    (agent <- lift (JS.get data "agent") ;; setCurrentAgent agent) ;;
    (msg <- lift (JS.get data "message") ;; setAgentMessage msg)
  else
    completed <- status_is data "completed" ;;
    if completed : bool then
      setCurrentAgent VNull ;;
      setAgentMessage (VStr "") ;;
      (d <- lift (JS.get data "data") ;; setPlanData d)
    else
      failed <- status_is data "error" ;;
      if failed : bool then
        (msg <- lift (JS.get data "message") ;; setError msg) ;;
        setCurrentAgent VNull ;;
        setAgentMessage (VStr "")
      else ret tt.

(** The body of [for (const line of lines)]. *)
Definition processLine (line : string) : M unit :=
  if startsWith line "data: " then
    try_catch
      (data <- lift (JSON.parse (slice 6 line)) ;;
       dispatch data)
      (fun e => console_error "Error parsing SSE data:" e)
  else ret tt.

(** The body of [while (true)] after a chunk has been read. *)
Definition processChunk (chunk : string) : M unit :=
  let lines := split LF chunk in
  forEach processLine lines.

(** [while (true)]: one read per chunk, then the read that ends the loop,
    with [done] or with a failure. *)
Fixpoint readLoop (pending : list string) (ending : option exn) : M unit :=
  match pending with
  | chunk :: rest =>
      count_read ;;
      processChunk chunk ;;
      readLoop rest ending
  | [] =>
      count_read ;;
      match ending with
      | Some e => raise e
      | None => ret tt
      end
  end.

Definition endpoint : string := "http://localhost:8000/api/generate-plan".

Definition handleSubmit (net : network) : M unit :=
  fun w =>
    let input := projectInput (ui w) in
    (if JS.falsy (VStr (trim input)) then
       setError (VStr "Please enter a project description")
     else
       setLoading true ;;
       setError VNull ;;
       setPlanData VNull ;;
       setCurrentAgent (VStr "system") ;;
       setAgentMessage (VStr "Connecting to agents...") ;;
       try_finally
         (try_catch
            (response <- fetch net (Request endpoint "POST" "application/json" input) ;;
             (if negb (ok response)
              then raise (Error ("HTTP error! status: " ++ of_N (status response)))
              else ret tt) ;;
             reader <- getReader (body response) ;;
             readLoop (chunks reader) (failure reader))
            (fun err =>
               setError (VStr "Failed to connect to the server. Make sure FastAPI is running.") ;;
               console_error "Error:" err ;;
               setCurrentAgent VNull ;;
               setAgentMessage (VStr "")))
         (setLoading false)) w.

(** The world before a submit, and the page state that a submit leaves. *)
Definition start (input : string) : world := World (initial input) [] 0 [].

(** The world that a computation leaves. *)
Definition exec {A : Type} (m : M A) (w : world) : world := snd (m w).

Definition submit (net : network) (w : world) : world := exec (handleSubmit net) w.

(** The world after [n] more reads. *)
Definition more_reads (n : nat) (w : world) : world :=
  World (ui w) (requests w) (n + reads w) (console w).

(** The world once a submit with a description has set the page to
    "connecting" and its request has gone out. *)
Definition connecting (w : world) : world :=
  World (AppState (projectInput (ui w)) true VNull VNull (VStr "system")
           (VStr "Connecting to agents..."))
        (Request endpoint "POST" "application/json" (projectInput (ui w)) :: requests w)
        (reads w) (console w).

(** A response with status 200 whose body delivers [texts] and ends. *)
Definition streaming (texts : list string) : network :=
  Responds (Response 200 (Some (Stream texts None))).

(** The events of the stream as the service writes them. *)
Definition running (agent msg : string) : value :=
  VObj [("status", VStr "running"); ("agent", VStr agent); ("message", VStr msg)].

Definition completed (data : value) : value :=
  VObj [("status", VStr "completed"); ("data", data)].

Definition failed (msg : string) : value :=
  VObj [("status", VStr "error"); ("message", VStr msg)].

(** ** formatOutput *)

Definition fence : string := "```".

Definition formatOutput (data : value) : result string :=
  no_output <-
    (if JS.falsy data then ret true
     else fo <- JS.get data "formatted_output" ;; ret (JS.falsy fo)) ;;
  if no_output : bool then ret "No output available"
  else
    output <- JS.get data "formatted_output" ;;
    let out := "" in
    (* Add summary *)
    summary <- JS.get output "summary" ;;
    out <-
      (if JS.truthy summary then
         let out := out ++ "PROJECT SUMMARY" ++ nl in
         total_tasks <- JS.get summary "total_tasks" ;;
         total_tasks <- JS.ToString total_tasks ;;
         let out := out ++ "Total Tasks: " ++ total_tasks ++ nl in
         days <- JS.get summary "estimated_duration_days" ;;
         days <- JS.ToString days ;;
         ret (out ++ "Estimated Duration: " ++ days ++ " days" ++ nl ++ nl)
       else ret out) ;;
    (* Add markdown output *)
    markdown <- JS.get output "markdown" ;;
    out <-
      (if JS.truthy markdown then
         markdown <- JS.ToString markdown ;;
         ret (out ++ markdown)
       else ret out) ;;
    (* Add Mermaid Gantt chart *)
    mermaid_gantt <- JS.get output "mermaid_gantt" ;;
    out <-
      (if JS.truthy mermaid_gantt then
         let out := out ++ nl ++ nl ++ "GANTT CHART (Mermaid.js)" ++ nl in
         let out := out ++ fence ++ "mermaid" ++ nl in
         mermaid_gantt <- JS.ToString mermaid_gantt ;;
         let out := out ++ mermaid_gantt in
         ret (out ++ nl ++ fence)
       else ret out) ;;
    ret out.

(** ** WorkflowGraph *)

Definition getPriorityColor (priority : value) : string :=
  if JS.is_string priority "high" then "#ef4444"
  else if JS.is_string priority "medium" then "#f59e0b"
  else if JS.is_string priority "low" then "#10b981"
  else "#6b7280".

(** One entry of the column that [tasks.map] builds: the React key, the
    circle (its background colour and the number in it), the box (name,
    days and category, as the children that React is given) and whether the
    arrow below the box is there.  The constant styles are left out. *)
Record node := Node {
  key : option string;
  color : string;
  step : nat;
  name : value;
  days : value;
  category : value;
  arrow : bool
}.

(** What [WorkflowGraph] returns. *)
Inductive element :=
| Placeholder (text : string)
| Column (nodes : list node).

(** [v.length === 0] *)
Definition length_is_0 (v : value) : bool :=
  match v with
  | VArr items => (List.length items =? 0)%nat
  | VStr s => (String.length s =? 0)%nat
  | VObj _ =>
      match JS.prop v "length" with
      | VNum n => N.eqb (mantissa n) 0
      | _ => false
      end
  | _ => false
  end.

(** [items.map((x, index) => f x index)], the indices starting at [index]. *)
Fixpoint mapi {A B : Type} (f : A -> nat -> result B) (items : list A) (index : nat)
  : result (list B) :=
  match items with
  | [] => ret []
  | x :: rest =>
      y <- f x index ;;
      ys <- mapi f rest (S index) ;;
      ret (y :: ys)
  end.

(** [tasks.map(f)]: only an array has a [map] to call. *)
Definition Array_map {B : Type} (tasks : value) (f : value -> nat -> result B)
  : result (list B) :=
  match tasks with
  | VArr items => mapi f items 0
  | _ => throw (TypeError "tasks.map is not a function")
  end.

(** [tasks.length], read inside the callback of [tasks.map]. *)
Definition Array_length (tasks : value) : nat :=
  match tasks with
  | VArr items => List.length items
  | _ => 0
  end.

Definition WorkflowGraph (planData : value) : result element :=
  no_tasks <-
    (if JS.falsy planData then ret true
     else
       tasks <- JS.get planData "dependency_tasks" ;;
       if JS.falsy tasks then ret true
       else ret (length_is_0 tasks)) ;;
  if no_tasks : bool then ret (Placeholder "No tasks to visualize")
  else
    tasks <- JS.get planData "dependency_tasks" ;;
    nodes <-
      Array_map tasks (fun task index =>
        id <- JS.get task "id" ;;
        key <- React.key id ;;
        priority <- JS.get task "priority" ;;
        name <- JS.get task "name" ;;
        days <- JS.get task "estimated_duration_days" ;;
        category <- JS.get task "category" ;;
        ret (Node key (getPriorityColor priority) (index + 1) name days category
               (index <? Array_length tasks - 1)%nat)) ;;
    ret (Column nodes).

(** ** ErrorBoundary *)

Module ErrorBoundary.

(** [this.state]; [error] is null or the value that was thrown. *)
Record state := State {
  hasError : bool;
  error : option exn
}.

(** The panel: its heading, the message shown after "Error: " (undefined
    when [error] is null), the label of the button and the state that
    the [onClick] of the button sets. *)
Record panel := Panel {
  heading : string;
  detail : option string;
  button : string;
  onClick : state
}.

Definition constructor : state := State false None.

Definition getDerivedStateFromError (e : exn) : state := State true (Some e).

Definition componentDidCatch (e : exn) : list (string * exn) :=
  [("Error caught by boundary:", e)].

Definition render (this : state) : React.output panel :=
  if hasError this then
    React.Own
      (Panel "Something went wrong with the visualization"
             (option_map message (error this))
             "Try Again"
             (State false None))
  else React.PropsChildren.

Definition component : React.boundary state panel :=
  React.Boundary getDerivedStateFromError componentDidCatch render.

End ErrorBoundary.

(** ** The page that App returns *)

(** [v && x] in JSX: the falsy [v] itself, or [x]. *)
Inductive slot (A : Type) :=
| Hidden (v : value)
| Shown (a : A).

Arguments Hidden {A}.
Arguments Shown {A}.

(** The inside of the output container. *)
Inductive plan_view :=
| Working (text : string)
| Report (pre : string).

(** What is in the workflow card. *)
Definition workflow_view : Type := React.shown ErrorBoundary.panel element.

(** The page below the title, as the tree that [App] returns: the error
    box, and the grid with the plan card and the workflow card.  The
    overlay, which reads [loading], [currentAgent] and [agentMessage] only,
    is left out, and so are the form and the constant styles.  What React
    does with the tree afterwards is outside this model, but for the error
    boundary. *)
Record page := Page {
  error_box : slot value;
  grid : slot (plan_view * slot workflow_view)
}.

(** [App], with the diagram component as a parameter and the state of the
    error boundary next to the state of the page.  The result is the page
    (or the error that nothing caught), the state of the boundary after
    rendering and what rendering wrote to the console. *)
Definition App (Graph : value -> result element)
    (s : app_state) (b : ErrorBoundary.state)
  : result page * ErrorBoundary.state * list (string * exn) :=
  let box := if JS.truthy (error s) then Shown (error s) else Hidden (error s) in
  let plan_or_loading :=
    if JS.truthy (planData s) then planData s else VBool (loading s) in
  if JS.truthy plan_or_loading then
    match (if loading s then ret (Working "Agents are working on your plan...")
           else pre <- formatOutput (planData s) ;; ret (Report pre)) with
    | inl e => (inl e, b, [])
    | inr plan =>
        if JS.truthy (planData s) then
          match React.render_in ErrorBoundary.component b (Graph (planData s)) with
          | (b', inr shown, log) =>
              (inr (Page box (Shown (plan, Shown shown))), b', log)
          | (b', inl e, log) => (inl e, b', log)
          end
        else (inr (Page box (Shown (plan, Hidden (planData s)))), b, [])
    end
  else (inr (Page box (Hidden plan_or_loading)), b, []).

(** ** What the specification says, in its own words *)

(** [s] occurs in [text]. *)
Fixpoint includes (s text : string) : bool :=
  String.prefix s text ||
  match text with
  | "" => false
  | String _ rest => includes s rest
  end.

(** The line that carries [payload]. *)
Definition frame (payload : string) : string := "data: " ++ payload.

(** A chunk that ends in a line feed. *)
Definition ended (text : string) : string := text ++ nl.

(** The text of a stream: its chunks one after the other. *)
Definition joined (texts : list string) : string := fold_right append "" texts.

(** The blocks of the report, around the texts of their values. *)
Definition summary_block (total_tasks days : string) : string :=
  "PROJECT SUMMARY" ++ nl ++
  "Total Tasks: " ++ total_tasks ++ nl ++
  "Estimated Duration: " ++ days ++ " days" ++ nl ++ nl.

Definition gantt_block (source : string) : string :=
  nl ++ nl ++ "GANTT CHART (Mermaid.js)" ++ nl ++
  fence ++ "mermaid" ++ nl ++ source ++ nl ++ fence.

(** The sections of the report: each is nothing when its field is not
    there (is falsy), and otherwise its block. *)
Definition summary_section (summary : value) : result string :=
  if JS.truthy summary then
    total_tasks <- JS.ToString (JS.prop summary "total_tasks") ;;
    days <- JS.ToString (JS.prop summary "estimated_duration_days") ;;
    ret (summary_block total_tasks days)
  else ret "".

Definition markdown_section (markdown : value) : result string :=
  if JS.truthy markdown then JS.ToString markdown else ret "".

Definition gantt_section (mermaid_gantt : value) : result string :=
  if JS.truthy mermaid_gantt then
    source <- JS.ToString mermaid_gantt ;;
    ret (gantt_block source)
  else ret "".

(** The report of a plan whose [formatted_output] is [output]: the three
    sections in this order. *)
Definition sections (output : value) : result string :=
  summary <- summary_section (JS.prop output "summary") ;;
  markdown <- markdown_section (JS.prop output "markdown") ;;
  gantt <- gantt_section (JS.prop output "mermaid_gantt") ;;
  ret (summary ++ markdown ++ gantt).

(** The task [task], at position [index] (from 0) among [total] tasks, is
    drawn as the node [n]. *)
Definition drawn_as (total index : nat) (task : value) (n : node) : Prop :=
  React.key (JS.prop task "id") = inr (key n) /\
  step n = index + 1 /\
  color n = getPriorityColor (JS.prop task "priority") /\
  name n = JS.prop task "name" /\
  days n = JS.prop task "estimated_duration_days" /\
  category n = JS.prop task "category" /\
  (arrow n = true <-> index + 1 < total).

(** A task that can be drawn: it is not null, and its [id] makes a key. *)
Definition drawable (task : value) : Prop :=
  JS.nullish task = false /\
  exists k, React.key (JS.prop task "id") = inr k.

(** What a page shows outside the workflow card: the error box and the plan
    card. *)
Definition outside_workflow (p : page) : slot value * slot plan_view :=
  (error_box p,
   match grid p with
   | Hidden v => Hidden v
   | Shown (plan, _) => Shown plan
   end).

(** The same of what [App] returns, or the error that [App] throws. *)
Definition outside (r : result page) : result (slot value * slot plan_view) :=
  match r with
  | inl e => inl e
  | inr p => inr (outside_workflow p)
  end.

(** What a page shows in the workflow card, when the card is there. *)
Definition workflow_card (p : page) : option workflow_view :=
  match grid p with
  | Shown (_, Shown view) => Some view
  | _ => None
  end.

(** The parser [p'] answers what the parser [p] answers, wherever [p]
    answers. *)
Definition grows {A : Type} (p p' : A -> JSON.parsed) : Prop :=
  forall a r, p a = Some r -> p' a = Some r.

Definition grows2 {A B : Type} (p p' : A -> B -> JSON.parsed) : Prop :=
  forall a b r, p a b = Some r -> p' a b = Some r.

(** ** The rest of the page: the overlay *)

(** [loading && currentAgent], the [visible] that [App] gives the overlay;
    [AgentOverlay] returns null when it is falsy. *)
Definition overlay_visible (s : app_state) : value :=
  if loading s then currentAgent s else VBool false.

Module AgentOverlay.

(** What [table[key]] gives when it gives something: a text of the table,
    or the member of [Object.prototype] of that name, which an object
    literal inherits. *)
Inductive looked :=
| Text (t : string)
| Inherited (member : string).

Definition Object_prototype : list string :=
  [ "constructor"; "hasOwnProperty"; "isPrototypeOf"; "propertyIsEnumerable";
    "toLocaleString"; "toString"; "valueOf"; "__proto__";
    "__defineGetter__"; "__defineSetter__"; "__lookupGetter__";
    "__lookupSetter__" ].

Fixpoint assoc (k : string) (table : list (string * string)) : option string :=
  match table with
  | [] => None
  | (k', t) :: rest => if String.eqb k k' then Some t else assoc k rest
  end.

Definition member (k : string) (names : list string) : bool :=
  existsb (String.eqb k) names.

(** [table[key] || fallback]: the key is turned into a string; an entry of
    the table wins over an inherited member; an empty text, like no entry
    at all, gives way to the fallback. *)
Definition lookup_or (table : list (string * string)) (fallback : string)
    (key : value) : result looked :=
  k <- JS.ToString key ;;
  match assoc k table with
  | Some t => ret (Text (if String.eqb t "" then fallback else t))
  | None =>
      if member k Object_prototype then ret (Inherited k)
      else ret (Text fallback)
  end.

(** The emoji are written by their UTF-8 bytes: U+2699 U+FE0F, U+1F4CB,
    U+23F1 U+FE0F, U+1F517, U+1F4C4, and U+1F916 for the fallback. *)
Definition emojiMap : list (string * string) :=
  [ ("system", bytes [226; 154; 153; 239; 184; 143]);
    ("planner", bytes [240; 159; 147; 139]);
    ("timeline", bytes [226; 143; 177; 239; 184; 143]);
    ("dependency", bytes [240; 159; 148; 151]);
    ("formatter", bytes [240; 159; 147; 132]) ].

Definition robot : string := bytes [240; 159; 164; 150].

Definition getAgentEmoji (agent : value) : result looked :=
  lookup_or emojiMap robot agent.

Definition colorMap : list (string * string) :=
  [ ("system", "#6366f1");
    ("planner", "#8b5cf6");
    ("timeline", "#06b6d4");
    ("dependency", "#10b981");
    ("formatter", "#f59e0b") ].

Definition getAgentColor (agent : value) : result looked :=
  lookup_or colorMap "#6b7280" agent.

End AgentOverlay.

(** ** The rest of the page: the form *)

(** The button of the form: [disabled={loading || !projectInput.trim()}]
    and the label that depends on [loading]; its [onClick] is
    [handleSubmit]. *)
Record button := Button {
  disabled : bool;
  label : string
}.

Definition submit_button (s : app_state) : button :=
  Button (loading s || JS.falsy (VStr (trim (projectInput s))))
         (if loading s then "Generating Plan..." else "Generate Plan").

(** [disabled={loading}] of the text area. *)
Definition textarea_disabled (s : app_state) : bool := loading s.

(** ** More words for the properties *)

(** The lines of all the chunks of a stream, chunk after chunk. *)
Definition lines_of (texts : list string) : list string :=
  flat_map (split LF) texts.

(** Not a frame: the line does not begin with the prefix. *)
Definition passed_over (line : string) : Prop := startsWith line "data: " = false.

(** A value that is neither an array nor an object. *)
Definition primitive (v : value) : bool :=
  match v with
  | VArr _ | VObj _ => false
  | _ => true
  end.

(** The message that the handler of [handleSubmit] shows for every error
    that it catches. *)
Definition connect_failed : string :=
  "Failed to connect to the server. Make sure FastAPI is running.".

(** * Properties *)

(** ** Strings *)

Lemma split_nonempty (sep : ascii) (s : string) :
  exists piece pieces, split sep s = piece :: pieces.
Proof.
  induction s as [|c r IH]; simpl.
  - eauto.
  - destruct (Ascii.eqb c sep); [eauto|].
    destruct IH as (piece & pieces & ->). eauto.
Qed.

Lemma split_app (sep : ascii) (a b : string) :
  split sep (a ++ String sep b) = (split sep a ++ split sep b)%list.
Proof.
  induction a as [|c r IH]; simpl.
  - now rewrite Ascii.eqb_refl.
  - destruct (Ascii.eqb c sep); simpl.
    + now rewrite IH.
    + rewrite IH. destruct (split_nonempty sep r) as (piece & pieces & ->).
      reflexivity.
Qed.

Lemma append_assoc (a b c : string) : (a ++ b) ++ c = a ++ (b ++ c).
Proof. induction a as [|x a IH]; simpl; [reflexivity | now rewrite IH]. Qed.

Lemma append_nil_r (a : string) : a ++ "" = a.
Proof. induction a as [|x a IH]; simpl; [reflexivity | now rewrite IH]. Qed.

Lemma startsWith_frame (payload : string) : startsWith (frame payload) "data: " = true.
Proof.
  unfold frame, startsWith. simpl. now destruct payload.
Qed.

Lemma slice_append (p s : string) : slice (String.length p) (p ++ s) = s.
Proof. induction p as [|c p IH]; simpl; [now destruct s | exact IH]. Qed.

Lemma slice_frame (payload : string) : slice 6 (frame payload) = payload.
Proof. exact (slice_append "data: " payload). Qed.

(** ** The fuel of the parsers *)

Lemma skip_ws_length (s : string) :
  String.length (JSON.skip_ws s) <= String.length s.
Proof.
  induction s as [|c r IH]; simpl; [lia|].
  destruct (JSON.is_ws c); simpl; lia.
Qed.

Lemma slice_length (n : nat) (s : string) :
  String.length (slice n s) = String.length s - n.
Proof.
  revert s. induction n as [|n IH]; intros [|c r]; simpl; auto.
Qed.

Lemma prefix_length (p s : string) :
  String.prefix p s = true -> String.length p <= String.length s.
Proof.
  revert s. induction p as [|c p IH]; intros [|d s]; simpl; try lia; try discriminate.
  destruct (ascii_dec c d); [|discriminate]. intros H. apply IH in H. lia.
Qed.

Lemma digits_length (s : string) (acc : N) (count : nat) :
  String.length (snd (JSON.digits s acc count)) + snd (fst (JSON.digits s acc count)) =
  String.length s + count.
Proof.
  revert acc count. induction s as [|c r IH]; intros acc count; simpl; [reflexivity|].
  destruct (JSON.digit c); simpl; [rewrite IH; lia | reflexivity].
Qed.

Lemma parse_number_length (s : string) (n : number) (r : string) :
  JSON.parse_number s = Some (n, r) -> String.length r < String.length s.
Proof.
  unfold JSON.parse_number.
  set (start := match s with
                | String c r0 => if Ascii.eqb c "-" then (true, r0) else (false, s)
                | "" => (false, s)
                end).
  assert (Hstart : String.length (snd start) <= String.length s).
  { subst start. destruct s as [|c r0]; simpl; [lia|].
    destruct (Ascii.eqb c "-"); simpl; lia. }
  destruct start as [neg s1]. simpl in Hstart.
  pose proof (digits_length s1 0%N 0) as Hint.
  destruct (JSON.digits s1 0%N 0) as [[int n_int] s2]. simpl in Hint.
  destruct (Nat.eqb_spec n_int 0); [discriminate|].
  destruct (String.prefix "0" s1 && negb (n_int =? 1)%nat); [discriminate|].
  assert (Hfrac : forall m n_frac s3,
    match s2 with
    | String c r0 =>
        if Ascii.eqb c "."
        then let '(m, n_frac, s3) := JSON.digits r0 int 0 in
             if (n_frac =? 0)%nat then None else Some (m, n_frac, s3)
        else Some (int, 0, s2)
    | "" => Some (int, 0, s2)
    end = Some (m, n_frac, s3) -> String.length s3 <= String.length s2).
  { intros m n_frac s3. destruct s2 as [|c r0]; [intros [= _ _ <-]; lia|].
    destruct (Ascii.eqb c "."); [|intros [= _ _ <-]; lia].
    pose proof (digits_length r0 int 0) as Hd.
    destruct (JSON.digits r0 int 0) as [[m' n'] s3']. simpl in Hd.
    destruct (n' =? 0)%nat; [discriminate|]. intros [= _ _ <-]. simpl. lia. }
  destruct (match s2 with
            | String c r0 => _
            | "" => _
            end) as [[[m n_frac] s3]|] eqn:Hf; [|discriminate].
  pose proof (Hfrac _ _ _ eq_refl) as Hle. clear Hfrac Hf.
  destruct s3 as [|c r0]; [intros [= _ <-]; simpl in *; lia|].
  destruct (Ascii.eqb c "e" || Ascii.eqb c "E"); [|intros [= _ <-]; simpl in *; lia].
  set (sign := match r0 with
               | String c' r' =>
                   if Ascii.eqb c' "-" then (true, r')
                   else if Ascii.eqb c' "+" then (false, r') else (false, r0)
               | "" => (false, r0)
               end).
  assert (Hsign : String.length (snd sign) <= String.length r0).
  { subst sign. destruct r0 as [|c' r']; simpl; [lia|].
    destruct (Ascii.eqb c' "-"); simpl; [lia|].
    destruct (Ascii.eqb c' "+"); simpl; lia. }
  destruct sign as [eneg s4]. simpl in Hsign.
  pose proof (digits_length s4 0%N 0) as He.
  destruct (JSON.digits s4 0%N 0) as [[e n_exp] s5]. simpl in He.
  destruct (n_exp =? 0)%nat; [discriminate|]. intros [= _ <-]. simpl in *. lia.
Qed.

Lemma string_items_length (n : nat) (s : string) (l : list JSON.item) (r : string) :
  String.length s <= n ->
  JSON.string_items s = Some (l, r) -> String.length r < String.length s.
Proof.
  revert s l r. induction n as [|n IH]; intros s l r Hn.
  - destruct s; [discriminate | simpl in Hn; lia].
  - destruct s as [|c s]; [discriminate|]. simpl in Hn.
    cbn [JSON.string_items].
    destruct (Ascii.eqb c QUOTE); [intros [= _ <-]; simpl; lia|].
    destruct (N_of_ascii c <? 32)%N; [discriminate|].
    destruct (Ascii.eqb c BACKSLASH).
    + destruct s as [|e s1]; [discriminate|].
      destruct (Ascii.eqb e "u").
      * destruct s1 as [|h1 [|h2 [|h3 [|h4 r2]]]]; try discriminate.
        destruct (JSON.hex h1), (JSON.hex h2), (JSON.hex h3), (JSON.hex h4);
          try discriminate.
        destruct (JSON.string_items r2) as [[l' r']|] eqn:Hrec; [|discriminate].
        intros [= _ <-]. apply IH in Hrec; simpl in *; lia.
      * destruct (JSON.escape e); [|discriminate].
        destruct (JSON.string_items s1) as [[l' r']|] eqn:Hrec; [|discriminate].
        intros [= _ <-]. apply IH in Hrec; simpl in *; lia.
    + destruct (JSON.string_items s) as [[l' r']|] eqn:Hrec; [|discriminate].
      intros [= _ <-]. apply IH in Hrec; simpl in *; lia.
Qed.

Lemma parse_string_length (s str r : string) :
  JSON.parse_string s = Some (str, r) -> String.length r < String.length s.
Proof.
  unfold JSON.parse_string.
  destruct (JSON.string_items s) as [[l r']|] eqn:H; [|discriminate].
  intros [= _ <-]. now apply (string_items_length (String.length s)) in H.
Qed.

Lemma literal_length (word : string) (v v' : value) (s r : string) :
  word <> "" ->
  JSON.literal word v s = Some (v', r) -> String.length r < String.length s.
Proof.
  intros Hw. unfold JSON.literal.
  destruct (String.prefix word s) eqn:Hp; [|discriminate].
  intros [= _ <-]. rewrite slice_length. apply prefix_length in Hp.
  destruct word; [contradiction|]. simpl in *. lia.
Qed.

Lemma skip_ws_cons (s : string) (c : ascii) (r : string) :
  JSON.skip_ws s = String c r -> String.length r < String.length s.
Proof.
  intros H. pose proof (skip_ws_length s) as Hl. rewrite H in Hl. simpl in Hl. lia.
Qed.

Lemma value_at_grows elements elements' members members' :
  grows2 elements elements' -> grows2 members members' ->
  grows (JSON.value_at elements members) (JSON.value_at elements' members').
Proof.
  intros He Hm s r. unfold JSON.value_at.
  destruct (JSON.skip_ws s) as [|c r0]; [discriminate|].
  destruct (Ascii.eqb c "{").
  { destruct (JSON.skip_ws r0) as [|c' r']; [discriminate|].
    destruct (Ascii.eqb c' "}"); [auto | apply Hm]. }
  destruct (Ascii.eqb c "[").
  { destruct (JSON.skip_ws r0) as [|c' r']; [discriminate|].
    destruct (Ascii.eqb c' "]"); [auto | apply He]. }
  auto.
Qed.

Lemma elements_at_grows one one' elements elements' :
  grows one one' -> grows2 elements elements' ->
  grows2 (JSON.elements_at one elements) (JSON.elements_at one' elements').
Proof.
  intros Hv He s acc r. unfold JSON.elements_at.
  destruct (one s) as [[v r1]|] eqn:H1; [|discriminate].
  rewrite (Hv _ _ H1).
  destruct (JSON.skip_ws r1) as [|c r']; [discriminate|].
  destruct (Ascii.eqb c ","); [apply He | auto].
Qed.

Lemma members_at_grows one one' members members' :
  grows one one' -> grows2 members members' ->
  grows2 (JSON.members_at one members) (JSON.members_at one' members').
Proof.
  intros Hv Hm s acc r. unfold JSON.members_at.
  destruct (JSON.skip_ws s) as [|c r0]; [discriminate|].
  destruct (Ascii.eqb c QUOTE); [|discriminate].
  destruct (JSON.parse_string r0) as [[k r1]|]; [|discriminate].
  destruct (JSON.skip_ws r1) as [|c1 r2]; [discriminate|].
  destruct (Ascii.eqb c1 ":"); [|discriminate].
  destruct (one r2) as [[v r3]|] eqn:H1; [|discriminate].
  rewrite (Hv _ _ H1).
  destruct (JSON.skip_ws r3) as [|c3 r4]; [discriminate|].
  destruct (Ascii.eqb c3 ","); [apply Hm | auto].
Qed.

Lemma parse_grows_S (fuel : nat) :
  grows (JSON.parse_value fuel) (JSON.parse_value (S fuel)) /\
  grows2 (JSON.parse_elements fuel) (JSON.parse_elements (S fuel)) /\
  grows2 (JSON.parse_members fuel) (JSON.parse_members (S fuel)).
Proof.
  induction fuel as [|fuel (IHv & IHe & IHm)].
  - repeat split; intros ? **; discriminate.
  - split; [|split].
    + apply (value_at_grows _ _ _ _ IHe IHm).
    + apply (elements_at_grows _ _ _ _ IHv IHe).
    + apply (members_at_grows _ _ _ _ IHv IHm).
Qed.

Lemma parse_grows (fuel fuel' : nat) :
  fuel <= fuel' ->
  grows (JSON.parse_value fuel) (JSON.parse_value fuel') /\
  grows2 (JSON.parse_elements fuel) (JSON.parse_elements fuel') /\
  grows2 (JSON.parse_members fuel) (JSON.parse_members fuel').
Proof.
  induction 1 as [|fuel' _ (IHv & IHe & IHm)].
  - repeat split; intros ? **; assumption.
  - destruct (parse_grows_S fuel') as (Hv & He & Hm).
    split; [|split].
    + intros a r H. apply Hv, IHv, H.
    + intros a b r H. apply He, IHe, H.
    + intros a b r H. apply Hm, IHm, H.
Qed.

(** How [value_at] came to its answer: through one of the parsers below
    it, on a shorter text, or without them. *)
Lemma value_at_answer elements members (s : string) (v : value) (r : string) :
  JSON.value_at elements members s = Some (v, r) ->
  (exists s0,
     String.length s0 < String.length s /\
     ((elements s0 [] = Some (v, r) /\
       forall elements' members',
         elements' s0 [] = Some (v, r) ->
         JSON.value_at elements' members' s = Some (v, r)) \/
      (members s0 [] = Some (v, r) /\
       forall elements' members',
         members' s0 [] = Some (v, r) ->
         JSON.value_at elements' members' s = Some (v, r)))) \/
  (String.length r < String.length s /\
   forall elements' members', JSON.value_at elements' members' s = Some (v, r)).
Proof.
  unfold JSON.value_at.
  destruct (JSON.skip_ws s) as [|c r0] eqn:Hs; [discriminate|].
  apply skip_ws_cons in Hs.
  destruct (Ascii.eqb c "{").
  { destruct (JSON.skip_ws r0) as [|c' r'] eqn:Hr; [discriminate|].
    apply skip_ws_cons in Hr.
    destruct (Ascii.eqb c' "}").
    - intros [= <- <-]. right. split; [lia | reflexivity].
    - intros H. left. exists r0. split; [lia|]. right. split; [exact H | auto]. }
  destruct (Ascii.eqb c "[").
  { destruct (JSON.skip_ws r0) as [|c' r'] eqn:Hr; [discriminate|].
    apply skip_ws_cons in Hr.
    destruct (Ascii.eqb c' "]").
    - intros [= <- <-]. right. split; [lia | reflexivity].
    - intros H. left. exists r0. split; [lia|]. left. split; [exact H | auto]. }
  intros H. right. split; [|intros; exact H].
  destruct (Ascii.eqb c QUOTE).
  { destruct (JSON.parse_string r0) as [[str r']|] eqn:Hp; [|discriminate].
    apply parse_string_length in Hp. injection H as _ <-. lia. }
  destruct (Ascii.eqb c "t");
    [apply literal_length in H; [simpl in H; lia | discriminate]|].
  destruct (Ascii.eqb c "f");
    [apply literal_length in H; [simpl in H; lia | discriminate]|].
  destruct (Ascii.eqb c "n");
    [apply literal_length in H; [simpl in H; lia | discriminate]|].
  destruct (JSON.parse_number (String c r0)) as [[n r']|] eqn:Hn; [|discriminate].
  apply parse_number_length in Hn. injection H as _ <-. simpl in Hn. lia.
Qed.

Lemma elements_at_answer one elements (s : string) (acc : list value)
    (v : value) (r : string) :
  JSON.elements_at one elements s acc = Some (v, r) ->
  exists v1 r1,
    one s = Some (v1, r1) /\
    ((String.length r < String.length r1 /\
      forall one' elements',
        one' s = Some (v1, r1) ->
        JSON.elements_at one' elements' s acc = Some (v, r)) \/
     (exists r2,
        String.length r2 < String.length r1 /\
        elements r2 (v1 :: acc) = Some (v, r) /\
        forall one' elements',
          one' s = Some (v1, r1) ->
          elements' r2 (v1 :: acc) = Some (v, r) ->
          JSON.elements_at one' elements' s acc = Some (v, r))).
Proof.
  unfold JSON.elements_at.
  destruct (one s) as [[v1 r1]|] eqn:H1; [|discriminate].
  exists v1, r1. split; [reflexivity|].
  destruct (JSON.skip_ws r1) as [|c r'] eqn:Hr; [discriminate|].
  pose proof (skip_ws_cons _ _ _ Hr) as Hl.
  destruct (Ascii.eqb c ",") eqn:Hc.
  - right. exists r'. split; [exact Hl|]. split; [exact H|].
    intros one' elements' H1' H2'. now rewrite H1', Hr, Hc.
  - destruct (Ascii.eqb c "]") eqn:Hc'; [|discriminate].
    injection H as <- <-. left. split; [exact Hl|].
    intros one' elements' H1'. now rewrite H1', Hr, Hc, Hc'.
Qed.

Lemma members_at_answer one members (s : string) (acc : list (string * value))
    (v : value) (r : string) :
  JSON.members_at one members s acc = Some (v, r) ->
  exists s0 k v1 r1,
    String.length s0 < String.length s /\
    one s0 = Some (v1, r1) /\
    ((String.length r < String.length r1 /\
      forall one' members',
        one' s0 = Some (v1, r1) ->
        JSON.members_at one' members' s acc = Some (v, r)) \/
     (exists r2,
        String.length r2 < String.length r1 /\
        members r2 ((k, v1) :: acc) = Some (v, r) /\
        forall one' members',
          one' s0 = Some (v1, r1) ->
          members' r2 ((k, v1) :: acc) = Some (v, r) ->
          JSON.members_at one' members' s acc = Some (v, r))).
Proof.
  unfold JSON.members_at.
  destruct (JSON.skip_ws s) as [|c r0] eqn:Hs; [discriminate|].
  pose proof (skip_ws_cons _ _ _ Hs) as Hls.
  destruct (Ascii.eqb c QUOTE); [|discriminate].
  destruct (JSON.parse_string r0) as [[k r1]|] eqn:Hk; [|discriminate].
  pose proof (parse_string_length _ _ _ Hk) as Hlk.
  destruct (JSON.skip_ws r1) as [|c1 r2] eqn:Hr1; [discriminate|].
  pose proof (skip_ws_cons _ _ _ Hr1) as Hl1.
  destruct (Ascii.eqb c1 ":"); [|discriminate].
  destruct (one r2) as [[v1 r3]|] eqn:H1; [|discriminate].
  exists r2, k, v1, r3. split; [lia|]. split; [exact H1|].
  destruct (JSON.skip_ws r3) as [|c3 r4] eqn:Hr3; [discriminate|].
  pose proof (skip_ws_cons _ _ _ Hr3) as Hl3.
  destruct (Ascii.eqb c3 ",") eqn:Hc.
  - right. exists r4. split; [exact Hl3|]. split; [exact H|].
    intros one' members' H1' H2'. now rewrite H1', Hr3, Hc.
  - destruct (Ascii.eqb c3 "}") eqn:Hc'; [|discriminate].
    injection H as <- <-. left. split; [exact Hl3|].
    intros one' members' H1'. now rewrite H1', Hr3, Hc, Hc'.
Qed.

(** An answer is found with fuel twice the length of what was read. *)
Lemma parse_tight (fuel : nat) :
  (forall s v r,
     JSON.parse_value fuel s = Some (v, r) ->
     String.length r < String.length s /\
     JSON.parse_value (2 * (String.length s - String.length r)) s = Some (v, r)) /\
  (forall s acc v r,
     JSON.parse_elements fuel s acc = Some (v, r) ->
     String.length r < String.length s /\
     JSON.parse_elements (2 * (String.length s - String.length r)) s acc = Some (v, r)) /\
  (forall s acc v r,
     JSON.parse_members fuel s acc = Some (v, r) ->
     String.length r < String.length s /\
     JSON.parse_members (2 * (String.length s - String.length r)) s acc = Some (v, r)).
Proof.
  induction fuel as [|fuel (IHv & IHe & IHm)].
  - repeat split; discriminate.
  - split; [|split].
    + intros s v r H.
      change (JSON.value_at (JSON.parse_elements fuel) (JSON.parse_members fuel) s
              = Some (v, r)) in H.
      destruct (value_at_answer _ _ _ _ _ H)
        as [(s0 & Hs0 & [(He & Hk)|(Hm & Hk)])|(Hl & Hk)].
      * destruct (IHe _ _ _ _ He) as (Hl & Ht). split; [lia|].
        destruct (2 * (String.length s - String.length r)) as [|F] eqn:HF; [lia|].
        apply (Hk (JSON.parse_elements F) (JSON.parse_members F)).
        refine (proj1 (proj2 (parse_grows _ F _)) _ _ _ Ht). lia.
      * destruct (IHm _ _ _ _ Hm) as (Hl & Ht). split; [lia|].
        destruct (2 * (String.length s - String.length r)) as [|F] eqn:HF; [lia|].
        apply (Hk (JSON.parse_elements F) (JSON.parse_members F)).
        refine (proj2 (proj2 (parse_grows _ F _)) _ _ _ Ht). lia.
      * split; [exact Hl|].
        destruct (2 * (String.length s - String.length r)) as [|F] eqn:HF; [lia|].
        apply (Hk (JSON.parse_elements F) (JSON.parse_members F)).
    + intros s acc v r H.
      change (JSON.elements_at (JSON.parse_value fuel) (JSON.parse_elements fuel) s acc
              = Some (v, r)) in H.
      destruct (elements_at_answer _ _ _ _ _ _ H)
        as (v1 & r1 & H1 & [(Hl & Hk)|(r2 & Hl2 & He & Hk)]);
        destruct (IHv _ _ _ H1) as (Hl1 & Ht1).
      * split; [lia|].
        destruct (2 * (String.length s - String.length r)) as [|F] eqn:HF; [lia|].
        apply (Hk (JSON.parse_value F) (JSON.parse_elements F)).
        refine (proj1 (parse_grows _ F _) _ _ Ht1). lia.
      * destruct (IHe _ _ _ _ He) as (Hl & Ht). split; [lia|].
        destruct (2 * (String.length s - String.length r)) as [|F] eqn:HF; [lia|].
        apply (Hk (JSON.parse_value F) (JSON.parse_elements F)).
        -- refine (proj1 (parse_grows _ F _) _ _ Ht1). lia.
        -- refine (proj1 (proj2 (parse_grows _ F _)) _ _ _ Ht). lia.
    + intros s acc v r H.
      change (JSON.members_at (JSON.parse_value fuel) (JSON.parse_members fuel) s acc
              = Some (v, r)) in H.
      destruct (members_at_answer _ _ _ _ _ _ H)
        as (s0 & k & v1 & r1 & Hs0 & H1 & [(Hl & Hk)|(r2 & Hl2 & Hm & Hk)]);
        destruct (IHv _ _ _ H1) as (Hl1 & Ht1).
      * split; [lia|].
        destruct (2 * (String.length s - String.length r)) as [|F] eqn:HF; [lia|].
        apply (Hk (JSON.parse_value F) (JSON.parse_members F)).
        refine (proj1 (parse_grows _ F _) _ _ Ht1). lia.
      * destruct (IHm _ _ _ _ Hm) as (Hl & Ht). split; [lia|].
        destruct (2 * (String.length s - String.length r)) as [|F] eqn:HF; [lia|].
        apply (Hk (JSON.parse_value F) (JSON.parse_members F)).
        -- refine (proj1 (parse_grows _ F _) _ _ Ht1). lia.
        -- refine (proj2 (proj2 (parse_grows _ F _)) _ _ _ Ht). lia.
Qed.

(** The fuel that [JSON.parse] gives is enough: whatever some fuel finds,
    it finds, and more fuel finds nothing else. *)
Theorem parse_value_enough (fuel : nat) (s : string) :
  2 * String.length s + 2 <= fuel ->
  JSON.parse_value fuel s = JSON.parse_value (2 * String.length s + 2) s.
Proof.
  intros Hf.
  destruct (JSON.parse_value (2 * String.length s + 2) s) as [r|] eqn:Hs.
  - exact (proj1 (parse_grows _ _ Hf) _ _ Hs).
  - destruct (JSON.parse_value fuel s) as [[v r]|] eqn:Hb; [|reflexivity].
    destruct (proj1 (parse_tight fuel) _ _ _ Hb) as (Hl & Ht).
    rewrite <- Hs. symmetry.
    refine (proj1 (parse_grows _ _ _) _ _ Ht). lia.
Qed.

Lemma strip_one_length (tokens : list string) (s r : string) :
  Forall (fun t => t <> "") tokens ->
  strip_one tokens s = Some r -> String.length r < String.length s.
Proof.
  induction 1 as [|t tokens Ht _ IH]; simpl; [discriminate|].
  destruct (String.prefix t s) eqn:Hp; [|exact IH].
  intros [= <-]. rewrite slice_length. apply prefix_length in Hp.
  destruct t; [contradiction|]. simpl in *. lia.
Qed.

(** The fuel that [trim] gives is enough: more strips nothing else. *)
Lemma strip_enough (tokens : list string) (fuel fuel' : nat) (s : string) :
  Forall (fun t => t <> "") tokens ->
  String.length s <= fuel -> String.length s <= fuel' ->
  strip tokens fuel s = strip tokens fuel' s.
Proof.
  intros Ht. revert fuel' s.
  induction fuel as [|fuel IH]; intros [|fuel'] s Hf Hf'; simpl.
  - reflexivity.
  - destruct (strip_one tokens s) as [r|] eqn:Hr; [|reflexivity].
    apply strip_one_length in Hr; [lia | exact Ht].
  - destruct (strip_one tokens s) as [r|] eqn:Hr; [|reflexivity].
    apply strip_one_length in Hr; [lia | exact Ht].
  - destruct (strip_one tokens s) as [r|] eqn:Hr; [|reflexivity].
    pose proof (strip_one_length _ _ _ Ht Hr). apply IH; lia.
Qed.

Lemma whitespace_nonempty : Forall (fun t => t <> "") whitespace.
Proof. repeat constructor; discriminate. Qed.

Lemma trimStart_enough (fuel : nat) (s : string) :
  String.length s <= fuel -> strip whitespace fuel s = trimStart s.
Proof.
  intros H. unfold trimStart. apply strip_enough; [apply whitespace_nonempty | lia | lia].
Qed.

(** ** The monad *)

Lemma get_not_nullish (v : value) (k : string) :
  JS.nullish v = false -> JS.get v k = inr (JS.prop v k).
Proof. intros H. unfold JS.get. now rewrite H. Qed.

Lemma get_inr (v : value) (k : string) (x : value) :
  JS.get v k = inr x -> JS.nullish v = false /\ x = JS.prop v k.
Proof.
  unfold JS.get. destruct (JS.nullish v); simpl; [discriminate|].
  intros [= <-]. auto.
Qed.

Lemma truthy_not_nullish (v : value) : JS.truthy v = true -> JS.nullish v = false.
Proof. destruct v; simpl; congruence. Qed.

(** A line of the stream never throws: what its [try] throws, its [catch]
    writes to the console. *)
Lemma processLine_returns (line : string) (w : world) :
  processLine line w = (inr tt, exec (processLine line) w).
Proof.
  unfold exec, processLine. destruct (startsWith line "data: "); [|reflexivity].
  unfold try_catch.
  destruct (bind (lift (JSON.parse (slice 6 line))) dispatch w) as [[e|[]] w'];
    reflexivity.
Qed.

Lemma forEach_processLine_returns (lines : list string) (w : world) :
  forEach processLine lines w = (inr tt, exec (forEach processLine lines) w).
Proof.
  revert w. induction lines as [|l lines IH]; intros w; [reflexivity|].
  unfold exec. simpl. rewrite processLine_returns. rewrite IH. reflexivity.
Qed.

Lemma exec_forEach_cons (l : string) (lines : list string) (w : world) :
  exec (forEach processLine (l :: lines)) w =
  exec (forEach processLine lines) (exec (processLine l) w).
Proof. unfold exec at 1. simpl. now rewrite processLine_returns. Qed.

Lemma exec_forEach_app (before after : list string) (w : world) :
  exec (forEach processLine (before ++ after)) w =
  exec (forEach processLine after) (exec (forEach processLine before) w).
Proof.
  revert w. induction before as [|l before IH]; intros w; [reflexivity|].
  simpl List.app. now rewrite !exec_forEach_cons, IH.
Qed.

(** ** Dispatch of one event *)

Lemma dispatch_status (data : value) (s : string) (w : world) :
  JS.get data "status" = inr (VStr s) ->
  forall s', status_is data s' w = (inr (String.eqb s s'), w).
Proof. intros H s'. unfold status_is, lift. simpl. now rewrite H. Qed.

Ltac dispatch_with H :=
  let Hn := fresh "Hn" in
  destruct (get_inr _ _ _ H) as [Hn _];
  unfold dispatch; simpl;
  repeat (rewrite (dispatch_status _ _ _ H); simpl);
  unfold lift; rewrite ?(get_not_nullish _ _ Hn); simpl.

Lemma dispatch_running (data : value) (w : world) :
  JS.get data "status" = inr (VStr "running") ->
  dispatch data w =
  (inr tt,
   updated (with_agentMessage (JS.prop data "message"))
     (updated (with_currentAgent (JS.prop data "agent")) w)).
Proof. intros H. dispatch_with H. reflexivity. Qed.

Lemma dispatch_completed (data : value) (w : world) :
  JS.get data "status" = inr (VStr "completed") ->
  dispatch data w =
  (inr tt,
   updated (with_planData (JS.prop data "data"))
     (updated (with_agentMessage (VStr ""))
        (updated (with_currentAgent VNull) w))).
Proof. intros H. dispatch_with H. reflexivity. Qed.

Lemma dispatch_error (data : value) (w : world) :
  JS.get data "status" = inr (VStr "error") ->
  dispatch data w =
  (inr tt,
   updated (with_agentMessage (VStr ""))
     (updated (with_currentAgent VNull)
        (updated (with_error (JS.prop data "message")) w))).
Proof. intros H. dispatch_with H. reflexivity. Qed.

(** C3. A [running] event sets the agent and the message of the indicator
    and nothing else: the plan, the error, the loading flag, the input, the
    requests, the reads and the console stay as they are.  A [completed]
    event clears the indicator (no agent, empty message) and stores its
    [data] as the plan.  So after running(system, "a"),
    running(planner, "b") and completed(d) the indicator is clear and the
    plan is [d]. *)
Theorem C3_running_and_completed (data d : value) (w : world) :
  (JS.get data "status" = inr (VStr "running") ->
   dispatch data w =
   (inr tt,
    World (AppState (projectInput (ui w)) (loading (ui w)) (planData (ui w))
             (error (ui w)) (JS.prop data "agent") (JS.prop data "message"))
          (requests w) (reads w) (console w))) /\
  (JS.get data "status" = inr (VStr "completed") ->
   dispatch data w =
   (inr tt,
    World (AppState (projectInput (ui w)) (loading (ui w)) (JS.prop data "data")
             (error (ui w)) VNull (VStr ""))
          (requests w) (reads w) (console w))) /\
  (let w' :=
     exec (forEach dispatch [running "system" "a"; running "planner" "b"; completed d]) w in
   currentAgent (ui w') = VNull /\
   agentMessage (ui w') = VStr "" /\
   planData (ui w') = d).
Proof.
  split; [|split].
  - intros H. now rewrite (dispatch_running _ _ H).
  - intros H. now rewrite (dispatch_completed _ _ H).
  - unfold exec. simpl. tauto.
Qed.

Lemma C3_running_and_completed_witness :
  let d := VObj [("dependency_tasks", VArr [])] in
  let w := start "build" in
  currentAgent (ui (exec (dispatch (running "planner" "b")) w)) = VStr "planner" /\
  planData (ui (exec (dispatch (running "planner" "b")) w)) = VNull /\
  planData (ui (exec (dispatch (completed d)) w)) = d /\
  planData (ui (exec (forEach dispatch
    [running "system" "a"; running "planner" "b"; completed d]) w)) = d.
Proof.
  intros d w.
  destruct (C3_running_and_completed (running "planner" "b") d w) as (Hr & _ & Hs).
  destruct (C3_running_and_completed (completed d) d w) as (_ & Hc & _).
  unfold exec. rewrite (Hr eq_refl), (Hc eq_refl).
  split; [reflexivity|]. split; [reflexivity|]. split; [reflexivity|].
  apply Hs.
Defined.

(** C4. An [error] event sets the error to its message and clears the
    indicator; the plan, the loading flag, the input, the requests, the
    reads and the console stay as they are.  So a plan stored by an
    earlier [completed] event is still there after it. *)
Theorem C4_error_event (data : value) (w : world)
    (H : JS.get data "status" = inr (VStr "error")) :
  dispatch data w =
  (inr tt,
   World (AppState (projectInput (ui w)) (loading (ui w)) (planData (ui w))
            (JS.prop data "message") VNull (VStr ""))
         (requests w) (reads w) (console w)) /\
  planData (ui (exec (dispatch data) w)) = planData (ui w) /\
  forall d : value,
    planData (ui (exec (forEach dispatch [completed d; data]) w)) = d.
Proof.
  split; [|split].
  - now rewrite (dispatch_error _ _ H).
  - unfold exec. now rewrite (dispatch_error _ _ H).
  - intros d. unfold exec. simpl. now rewrite (dispatch_error _ _ H).
Qed.

Lemma C4_error_event_witness :
  let d := VObj [("formatted_output", VObj [("markdown", VStr "# Plan")])] in
  let w := exec (dispatch (completed d)) (start "build") in
  error (ui (exec (dispatch (failed "boom")) w)) = VStr "boom" /\
  currentAgent (ui (exec (dispatch (failed "boom")) w)) = VNull /\
  planData (ui (exec (dispatch (failed "boom")) w)) = d.
Proof.
  intros d w.
  destruct (C4_error_event (failed "boom") w eq_refl) as (Heq & Hplan & _).
  unfold exec. rewrite Heq. simpl. auto.
Defined.

(** ** Lines and chunks *)

(** What an event does to the world does not depend on the world: it
    throws, or it updates the page state. *)
Lemma dispatch_shape (data : value) :
  (exists e, forall w, dispatch data w = (inl e, w)) \/
  (exists f, forall w, dispatch data w = (inr tt, updated f w)).
Proof.
  destruct (JS.nullish data) eqn:Hn.
  - left. eexists. intros w. unfold dispatch, status_is, lift, JS.get. simpl.
    rewrite Hn. reflexivity.
  - right. unfold dispatch, status_is, lift. simpl.
    rewrite !(get_not_nullish _ _ Hn).
    destruct (JS.is_string (JS.prop data "status") "running").
    { eexists (fun s => with_agentMessage _ (with_currentAgent _ s)).
      intros w. reflexivity. }
    destruct (JS.is_string (JS.prop data "status") "completed").
    { eexists (fun s => with_planData _ (with_agentMessage _ (with_currentAgent _ s))).
      intros w. reflexivity. }
    destruct (JS.is_string (JS.prop data "status") "error").
    { eexists (fun s => with_agentMessage _ (with_currentAgent _ (with_error _ s))).
      intros w. reflexivity. }
    exists (fun s => s). intros [s rq rd c]. reflexivity.
Qed.

(** A line updates the page state and may write to the console; it never
    throws and never touches the requests or the reads. *)
Lemma processLine_shape (line : string) :
  exists f log, forall w,
    processLine line w =
    (inr tt, World (f (ui w)) (requests w) (reads w) (log ++ console w)%list).
Proof.
  unfold processLine. destruct (startsWith line "data: ").
  - destruct (JSON.parse (slice 6 line)) as [e|data].
    + exists (fun s => s), [("Error parsing SSE data:", e)].
      intros [s rq rd c]. reflexivity.
    + destruct (dispatch_shape data) as [[e H]|[f H]].
      * exists (fun s => s), [("Error parsing SSE data:", e)].
        intros [s rq rd c]. unfold try_catch, lift. simpl. now rewrite H.
      * exists f, []. intros w. unfold try_catch, lift. simpl. now rewrite H.
  - exists (fun s => s), []. intros [s rq rd c]. reflexivity.
Qed.

Lemma forEach_processLine_shape (lines : list string) :
  exists f log, forall w,
    forEach processLine lines w =
    (inr tt, World (f (ui w)) (requests w) (reads w) (log ++ console w)%list).
Proof.
  induction lines as [|l lines (f & log & IH)].
  - exists (fun s => s), []. intros [s rq rd c]. reflexivity.
  - destruct (processLine_shape l) as (g & log' & H).
    exists (fun s => f (g s)), (log ++ log')%list. intros w.
    simpl. rewrite H, IH. simpl. now rewrite <- List.app_assoc.
Qed.

Lemma forEach_processLine_reads (lines : list string) (n : nat) (w : world) :
  exec (forEach processLine lines) (more_reads n w) =
  more_reads n (exec (forEach processLine lines) w).
Proof.
  destruct (forEach_processLine_shape lines) as (f & log & H).
  unfold exec. now rewrite !H.
Qed.

Lemma readLoop_cons (chunk : string) (rest : list string) (ending : option exn)
    (w : world) :
  readLoop (chunk :: rest) ending w =
  readLoop rest ending (exec (forEach processLine (split LF chunk)) (more_reads 1 w)).
Proof.
  simpl. unfold processChunk, count_read.
  fold (more_reads 1 w).
  now rewrite forEach_processLine_returns.
Qed.

Lemma processLine_not_a_frame (line : string) (w : world) :
  startsWith line "data: " = false -> processLine line w = (inr tt, w).
Proof. intros H. unfold processLine. now rewrite H. Qed.

Lemma processLine_malformed (payload : string) (e : exn) (w : world) :
  JSON.parse payload = inl e ->
  processLine (frame payload) w =
  (inr tt, logged "Error parsing SSE data:" e w).
Proof.
  intros H. unfold processLine.
  rewrite startsWith_frame, slice_frame, H.
  reflexivity.
Qed.

Lemma dispatch_returns (data : value) (w : world) :
  JS.nullish data = false -> fst (dispatch data w) = inr tt.
Proof.
  intros Hn. destruct (dispatch_shape data) as [[e H]|[f H]].
  - specialize (H w). unfold dispatch, status_is, lift in H. simpl in H.
    rewrite (get_not_nullish _ _ Hn) in H. simpl in H.
    repeat (match type of H with
            | context [if ?b then _ else _] => destruct b
            end; simpl in H; rewrite ?(get_not_nullish _ _ Hn) in H; simpl in H);
      discriminate.
  - now rewrite H.
Qed.

Lemma processLine_frame (payload : string) (data : value) (w : world) :
  JSON.parse payload = inr data -> JS.nullish data = false ->
  processLine (frame payload) w = dispatch data w.
Proof.
  intros H Hn. unfold processLine.
  rewrite startsWith_frame, slice_frame, H.
  unfold try_catch, lift. simpl. pose proof (dispatch_returns data w Hn) as Hr.
  destruct (dispatch data w) as [[e|[]] w']; [discriminate | reflexivity].
Qed.

(** Chunks that all end in a line feed, and one more chunk: the loop does
    to the page and the console what the lines of the whole text do. *)
Lemma readLoop_whole_lines (chunks : list string) (last : string) (w : world) :
  readLoop (map ended chunks ++ [last]) None w =
  (inr tt,
   more_reads (List.length chunks + 2)
     (exec (forEach processLine
              (split LF (joined (map ended chunks ++ [last])))) w)).
Proof.
  revert w. induction chunks as [|c chunks IH]; intros w.
  - simpl List.app. simpl map. rewrite readLoop_cons. simpl joined.
    rewrite append_nil_r. simpl readLoop. unfold count_read. simpl.
    rewrite forEach_processLine_reads. destruct w; reflexivity.
  - simpl List.app. simpl map. rewrite readLoop_cons, IH. f_equal.
    simpl joined. change (ended c) with (c ++ String LF "").
    rewrite append_assoc. simpl (String LF "" ++ _).
    rewrite !split_app, !exec_forEach_app. simpl (split LF "").
    rewrite !forEach_processLine_reads.
    replace (exec (forEach processLine [""]) (exec (forEach processLine (split LF c)) w))
      with (exec (forEach processLine (split LF c)) w) by reflexivity.
    unfold more_reads. simpl. repeat f_equal. lia.
Qed.

(** ** handleSubmit *)

Lemma falsy_trim (input : string) :
  trim input <> "" -> JS.falsy (VStr (trim input)) = false.
Proof.
  intros H. unfold JS.falsy. simpl.
  destruct (String.eqb_spec (trim input) ""); [contradiction | reflexivity].
Qed.

Lemma readLoop_returns (chunks : list string) (w : world) :
  readLoop chunks None w = (inr tt, exec (readLoop chunks None) w).
Proof.
  revert w. induction chunks as [|c chunks IH]; intros w; [reflexivity|].
  unfold exec. rewrite readLoop_cons. now rewrite IH.
Qed.

(** A submit with a description, answered with a success status and a
    body that ends: the loop runs from the connecting state, and then
    [loading] is set to false. *)
Lemma handleSubmit_streaming (r : response) (texts : list string) (w : world) :
  trim (projectInput (ui w)) <> "" ->
  ok r = true ->
  body r = Some (Stream texts None) ->
  handleSubmit (Responds r) w =
  (inr tt, updated (with_loading false) (exec (readLoop texts None) (connecting w))).
Proof.
  intros Hin Hok Hbody. unfold handleSubmit.
  rewrite (falsy_trim _ Hin). unfold try_finally, try_catch, fetch.
  simpl. rewrite Hok, Hbody. simpl.
  fold (connecting w). now rewrite readLoop_returns.
Qed.

(** C1, as the code has it.  Each chunk is split into lines on its own.  A
    line that does not begin with "data: " is passed over; of a line that
    does, what follows the six characters of the prefix is parsed as JSON
    and the event is dispatched.  When every chunk but the last ends in a
    line feed, so that no line lies across two chunks, a submit does to the
    page and the console what the lines of the whole text do, one after the
    other from the connecting state, and it reads once per chunk and once
    more for the end. *)
Theorem C1_frames_chunk_by_chunk (chunks : list string) (last : string)
    (r : response) (w : world) :
  let texts := (map ended chunks ++ [last])%list in
  (forall line w0,
     startsWith line "data: " = false -> processLine line w0 = (inr tt, w0)) /\
  (forall payload data w0,
     JSON.parse payload = inr data -> JS.nullish data = false ->
     processLine (frame payload) w0 = dispatch data w0) /\
  (forall chunk rest ending w0,
     readLoop (chunk :: rest) ending w0 =
     readLoop rest ending
       (exec (forEach processLine (split LF chunk)) (more_reads 1 w0))) /\
  (trim (projectInput (ui w)) <> "" -> ok r = true ->
   body r = Some (Stream texts None) ->
   handleSubmit (Responds r) w =
   (inr tt,
    updated (with_loading false)
      (more_reads (List.length texts + 1)
         (exec (forEach processLine (split LF (joined texts))) (connecting w))))).
Proof.
  intros texts. split; [|split; [|split]].
  - intros line w0. apply processLine_not_a_frame.
  - intros payload data w0. apply processLine_frame.
  - intros chunk rest ending w0. apply readLoop_cons.
  - intros Hin Hok Hbody. rewrite (handleSubmit_streaming _ _ _ Hin Hok Hbody).
    unfold exec at 1. unfold texts. rewrite readLoop_whole_lines.
    rewrite List.length_app, List.length_map. simpl.
    replace (List.length chunks + 1 + 1) with (List.length chunks + 2) by lia.
    reflexivity.
Qed.

Lemma C1_frames_chunk_by_chunk_witness :
  let f1 := q "data: {'status':'running','agent':'system','message':'a'}" in
  let f2 := q "data: {'status':'completed','data':{'tasks':3}}" in
  processLine "event: ping" (start "build") = (inr tt, start "build") /\
  processLine f1 (start "build") =
    dispatch (running "system" "a") (start "build") /\
  submit (streaming [f1 ++ nl; ": keep-alive" ++ nl; f2]) (start "build") =
  World (AppState "build" false (VObj [("tasks", VNum (Number_of_N 3))]) VNull
           VNull (VStr ""))
        [Request endpoint "POST" "application/json" "build"] 4 [].
Proof.
  intros f1 f2.
  destruct (C1_frames_chunk_by_chunk [f1; ": keep-alive"] f2
              (Response 200 (Some (Stream [f1 ++ nl; ": keep-alive" ++ nl; f2] None)))
              (start "build")) as (Hskip & Hframe & _ & Hrun).
  split; [|split].
  - apply Hskip. reflexivity.
  - apply (Hframe (q "{'status':'running','agent':'system','message':'a'}")).
    + reflexivity.
    + reflexivity.
  - unfold submit, exec, streaming. rewrite Hrun.
    + reflexivity.
    + discriminate.
    + reflexivity.
    + reflexivity.
Defined.

(** C1 as stated fails: the same text dispatches its frame when it comes as
    one chunk and loses it when the chunk boundary falls inside the frame,
    where the first half does not parse and the second half does not begin
    with the prefix. *)
Lemma C1_frame_across_chunks_lost :
  let first := q "data: {'status':'comple" in
  let second := q "ted','data':{'tasks':3}}" ++ nl in
  let whole := q "data: {'status':'completed','data':{'tasks':3}}" ++ nl in
  joined [first; second] = whole /\
  planData (ui (submit (streaming [whole]) (start "build"))) =
    VObj [("tasks", VNum (Number_of_N 3))] /\
  planData (ui (submit (streaming [first; second]) (start "build"))) = VNull /\
  currentAgent (ui (submit (streaming [first; second]) (start "build"))) =
    VStr "system" /\
  console (submit (streaming [first; second]) (start "build")) =
    [("Error parsing SSE data:", SyntaxError "Unexpected token in JSON")].
Proof. vm_compute. repeat split. Qed.

(** C2. A frame whose JSON does not parse is written to the console and
    passed over: the line returns normally and leaves the page state, the
    requests and the reads as they are.  The lines after it are processed
    from the world that the lines before it left, with that one console
    line more, and the read loop goes on to the next chunk.  A frame that
    parses (to anything but null) is dispatched, wherever it stands. *)
Theorem C2_malformed_frame_skipped (payload : string) (e : exn)
    (before after : list string) (chunk : string) (rest : list string)
    (ending : option exn) (w : world)
    (Hbad : JSON.parse payload = inl e)
    (Hlines : split LF chunk = (before ++ frame payload :: after)%list) :
  processLine (frame payload) w =
    (inr tt, logged "Error parsing SSE data:" e w) /\
  ui (exec (processLine (frame payload)) w) = ui w /\
  forEach processLine (before ++ frame payload :: after) w =
    (inr tt,
     exec (forEach processLine after)
       (logged "Error parsing SSE data:" e (exec (forEach processLine before) w))) /\
  readLoop (chunk :: rest) ending w =
    readLoop rest ending
      (exec (forEach processLine after)
         (logged "Error parsing SSE data:" e
            (exec (forEach processLine before) (more_reads 1 w)))) /\
  (forall valid data w0,
     JSON.parse valid = inr data -> JS.nullish data = false ->
     processLine (frame valid) w0 = dispatch data w0).
Proof.
  assert (Hfor : forall w0,
    exec (forEach processLine (before ++ frame payload :: after)) w0 =
    exec (forEach processLine after)
      (logged "Error parsing SSE data:" e (exec (forEach processLine before) w0))).
  { intros w0. rewrite exec_forEach_app, exec_forEach_cons.
    unfold exec at 2. now rewrite (processLine_malformed _ _ _ Hbad). }
  split; [|split; [|split; [|split]]].
  - apply (processLine_malformed _ _ _ Hbad).
  - unfold exec. now rewrite (processLine_malformed _ _ _ Hbad).
  - rewrite forEach_processLine_returns. now rewrite Hfor.
  - rewrite readLoop_cons, Hlines. now rewrite Hfor.
  - intros valid data w0. apply processLine_frame.
Qed.

Lemma C2_malformed_frame_skipped_witness :
  let f1 := q "data: {'status':'running','agent':'planner','message':'b'}" in
  let bad := q "{'status':'running','agent'" in
  let f3 := q "data: {'status':'completed','data':{'tasks':3}}" in
  let chunk := f1 ++ nl ++ frame bad ++ nl ++ f3 in
  submit (streaming [chunk]) (start "build") =
  World (AppState "build" false (VObj [("tasks", VNum (Number_of_N 3))]) VNull
           VNull (VStr ""))
        [Request endpoint "POST" "application/json" "build"] 2
        [("Error parsing SSE data:", SyntaxError "Unexpected token in JSON")].
Proof.
  intros f1 bad f3 chunk.
  destruct (C2_malformed_frame_skipped bad (SyntaxError "Unexpected token in JSON")
              [f1] [f3] chunk [] None (connecting (start "build"))
              eq_refl eq_refl) as (_ & _ & _ & Hloop & _).
  unfold submit, exec, streaming.
  rewrite (handleSubmit_streaming _ [chunk]); [|discriminate|reflexivity|reflexivity].
  unfold exec. rewrite Hloop. reflexivity.
Defined.

(** C6. When the description is empty once trimmed, a submit sets the error
    to the validation message and does nothing else, whatever the network
    would answer: no request goes out, nothing is read or written to the
    console, and [loading], [planData], [currentAgent] and [agentMessage]
    are as before. *)
Theorem C6_blank_description_rejected (net : network) (w : world)
    (Hblank : trim (projectInput (ui w)) = "") :
  handleSubmit net w =
    (inr tt,
     World (AppState (projectInput (ui w)) (loading (ui w)) (planData (ui w))
              (VStr "Please enter a project description")
              (currentAgent (ui w)) (agentMessage (ui w)))
           (requests w) (reads w) (console w)) /\
  requests (submit net w) = requests w /\
  reads (submit net w) = reads w /\
  loading (ui (submit net w)) = loading (ui w) /\
  planData (ui (submit net w)) = planData (ui w) /\
  currentAgent (ui (submit net w)) = currentAgent (ui w) /\
  agentMessage (ui (submit net w)) = agentMessage (ui w).
Proof.
  assert (H : handleSubmit net w =
    (inr tt, updated (with_error (VStr "Please enter a project description")) w)).
  { unfold handleSubmit. rewrite Hblank. reflexivity. }
  unfold submit, exec. rewrite H. simpl. tauto.
Qed.

Lemma C6_blank_description_rejected_witness :
  let input := "  " ++ nl ++ String "009" "" in
  let net :=
    streaming [q "data: {'status':'completed','data':{'tasks':3}}" ++ nl] in
  trim input = "" /\
  submit net (start input) =
  World (AppState input false VNull (VStr "Please enter a project description")
           VNull (VStr ""))
        [] 0 [].
Proof.
  intros input net. split; [reflexivity|].
  destruct (C6_blank_description_rejected net (start input) eq_refl) as (H & _).
  unfold submit, exec. rewrite H. reflexivity.
Defined.

(** C5, as the code has it.  When the status of the response is outside 200
    to 299, the error thrown carries the status in its message and is
    written to the console; what the page shows is the fixed message of
    the handler, the same for every status.  The indicator is cleared,
    [loading] ends false, the one request has gone out and the body is
    never read. *)
Theorem C5_http_error_fixed_message (r : response) (w : world)
    (Hinput : trim (projectInput (ui w)) <> "")
    (Hstatus : ok r = false) :
  handleSubmit (Responds r) w =
  (inr tt,
   World (AppState (projectInput (ui w)) false VNull
            (VStr "Failed to connect to the server. Make sure FastAPI is running.")
            VNull (VStr ""))
         (Request endpoint "POST" "application/json" (projectInput (ui w))
            :: requests w)
         (reads w)
         (("Error:", Error ("HTTP error! status: " ++ of_N (status r)))
            :: console w)).
Proof.
  unfold handleSubmit. rewrite (falsy_trim _ Hinput).
  unfold try_finally, try_catch, fetch. simpl. rewrite Hstatus. reflexivity.
Qed.

Lemma C5_http_error_fixed_message_witness :
  let body := Stream [q "data: {'status':'completed','data':{'tasks':3}}" ++ nl] None in
  handleSubmit (Responds (Response 503 (Some body))) (start "build") =
  (inr tt,
   World (AppState "build" false VNull
            (VStr "Failed to connect to the server. Make sure FastAPI is running.")
            VNull (VStr ""))
         [Request endpoint "POST" "application/json" "build"] 0
         [("Error:", Error "HTTP error! status: 503")]).
Proof.
  intros body.
  apply (C5_http_error_fixed_message (Response 503 (Some body)) (start "build")).
  - discriminate.
  - reflexivity.
Defined.

(** C5 as stated fails: for status 500 the message on the page is the fixed
    one and does not include the status, which only the console line
    has. *)
Lemma C5_status_not_on_page :
  let body := Stream [q "data: {'status':'completed','data':{'tasks':3}}" ++ nl] None in
  let w := submit (Responds (Response 500 (Some body))) (start "build") in
  ok (Response 500 (Some body)) = false /\
  error (ui w) =
    VStr "Failed to connect to the server. Make sure FastAPI is running." /\
  includes (of_N 500)
    "Failed to connect to the server. Make sure FastAPI is running." = false /\
  console w = [("Error:", Error "HTTP error! status: 500")] /\
  reads w = 0.
Proof. vm_compute. repeat split. Qed.

(** ** formatOutput *)

Lemma falsy_truthy (v : value) : JS.falsy v = negb (JS.truthy v).
Proof. reflexivity. Qed.

Lemma formatOutput_no_output (data : value) :
  JS.truthy data && JS.truthy (JS.prop data "formatted_output") = false ->
  formatOutput data = inr "No output available".
Proof.
  intros H. unfold formatOutput. rewrite !falsy_truthy.
  destruct (JS.truthy data) eqn:Hd; simpl in *; [|reflexivity].
  rewrite (get_not_nullish _ _ (truthy_not_nullish _ Hd)). simpl.
  rewrite falsy_truthy, H. reflexivity.
Qed.

Lemma formatOutput_sections (data : value) :
  JS.truthy data && JS.truthy (JS.prop data "formatted_output") = true ->
  formatOutput data = sections (JS.prop data "formatted_output").
Proof.
  intros H. apply andb_prop in H. destruct H as [Hd Ho].
  unfold formatOutput, sections. rewrite !falsy_truthy, Hd. simpl.
  rewrite (get_not_nullish _ _ (truthy_not_nullish _ Hd)). simpl.
  rewrite falsy_truthy, Ho. simpl.
  rewrite !(get_not_nullish _ _ (truthy_not_nullish _ Ho)). simpl.
  set (output := JS.prop data "formatted_output").
  unfold summary_section, markdown_section, gantt_section.
  destruct (JS.truthy (JS.prop output "summary")) eqn:Hs; simpl.
  - rewrite !(get_not_nullish _ _ (truthy_not_nullish _ Hs)). simpl.
    destruct (JS.ToString (JS.prop (JS.prop output "summary") "total_tasks"))
      as [e|total]; [reflexivity|]. simpl.
    destruct (JS.ToString (JS.prop (JS.prop output "summary") "estimated_duration_days"))
      as [e|days]; [reflexivity|]. simpl.
    destruct (JS.truthy (JS.prop output "markdown")); simpl;
      [destruct (JS.ToString (JS.prop output "markdown")) as [e|md];
         [reflexivity|]; simpl|];
      (destruct (JS.truthy (JS.prop output "mermaid_gantt")); simpl;
         [destruct (JS.ToString (JS.prop output "mermaid_gantt")) as [e|src];
            [reflexivity|]; simpl|]);
      unfold summary_block, gantt_block, fence, nl, of_char; simpl;
      rewrite ?append_assoc, ?append_nil_r; simpl;
      rewrite ?append_assoc; simpl; rewrite ?append_assoc; reflexivity.
  - destruct (JS.truthy (JS.prop output "markdown")); simpl;
      [destruct (JS.ToString (JS.prop output "markdown")) as [e|md];
         [reflexivity|]; simpl|];
      (destruct (JS.truthy (JS.prop output "mermaid_gantt")); simpl;
         [destruct (JS.ToString (JS.prop output "mermaid_gantt")) as [e|src];
            [reflexivity|]; simpl|]);
      unfold gantt_block, fence, nl, of_char; simpl;
      rewrite ?append_assoc, ?append_nil_r; simpl;
      rewrite ?append_assoc; reflexivity.
Qed.

(** C8. With no result ([data] is not there, or its [formatted_output] is
    not) [formatOutput] returns "No output available".  Otherwise it
    returns, one after the other, the summary block (total tasks and
    estimated duration in days) if there is a summary, the markdown report
    if there is one, and the Mermaid source between its fixed delimiters if
    there is one; a section that is not there adds nothing.  A field is
    there when its value is truthy, which is what the code tests, and
    [total], [days], [report] and [source] stand for the texts of the
    values between the fixed parts. *)
Theorem C8_formatOutput_sections (data : value) :
  let output := JS.prop data "formatted_output" in
  (JS.falsy data = true \/ JS.falsy output = true ->
   formatOutput data = inr "No output available") /\
  (JS.truthy data = true -> JS.truthy output = true ->
   formatOutput data =
   (summary <- summary_section (JS.prop output "summary") ;;
    markdown <- markdown_section (JS.prop output "markdown") ;;
    gantt <- gantt_section (JS.prop output "mermaid_gantt") ;;
    ret (summary ++ markdown ++ gantt))) /\
  (forall field,
     JS.truthy field = false ->
     summary_section field = inr "" /\
     markdown_section field = inr "" /\
     gantt_section field = inr "") /\
  (forall summary total days,
     JS.truthy summary = true ->
     JS.ToString (JS.prop summary "total_tasks") = inr total ->
     JS.ToString (JS.prop summary "estimated_duration_days") = inr days ->
     summary_section summary =
     inr ("PROJECT SUMMARY" ++ nl ++
          "Total Tasks: " ++ total ++ nl ++
          "Estimated Duration: " ++ days ++ " days" ++ nl ++ nl)) /\
  (forall markdown report,
     JS.truthy markdown = true ->
     JS.ToString markdown = inr report ->
     markdown_section markdown = inr report) /\
  (forall mermaid_gantt source,
     JS.truthy mermaid_gantt = true ->
     JS.ToString mermaid_gantt = inr source ->
     gantt_section mermaid_gantt =
     inr (nl ++ nl ++ "GANTT CHART (Mermaid.js)" ++ nl ++
          fence ++ "mermaid" ++ nl ++ source ++ nl ++ fence)).
Proof.
  intros output. repeat split.
  - intros H. apply formatOutput_no_output. fold output.
    rewrite !falsy_truthy in H.
    destruct H as [H|H]; apply negb_true_iff in H; rewrite H;
      [reflexivity | apply andb_false_r].
  - intros Hd Ho. rewrite formatOutput_sections.
    + reflexivity.
    + fold output. now rewrite Hd, Ho.
  - unfold summary_section. now rewrite H.
  - unfold markdown_section. now rewrite H.
  - unfold gantt_section. now rewrite H.
  - intros summary total days Ht Htotal Hdays.
    unfold summary_section. rewrite Ht, Htotal. simpl. rewrite Hdays. reflexivity.
  - intros markdown report Ht Hreport. unfold markdown_section. now rewrite Ht.
  - intros mermaid_gantt source Ht Hsource.
    unfold gantt_section. rewrite Ht, Hsource. reflexivity.
Qed.

Lemma C8_formatOutput_sections_witness :
  let summary :=
    VObj [("total_tasks", VNum (Number_of_N 2));
          ("estimated_duration_days", VNum (Number_of_N 7))] in
  let full :=
    VObj [("formatted_output",
           VObj [("summary", summary); ("markdown", VStr "# Plan");
                 ("mermaid_gantt", VStr "gantt")])] in
  formatOutput VNull = inr "No output available" /\
  formatOutput full =
  inr ("PROJECT SUMMARY" ++ nl ++ "Total Tasks: 2" ++ nl ++
       "Estimated Duration: 7 days" ++ nl ++ nl ++
       "# Plan" ++
       nl ++ nl ++ "GANTT CHART (Mermaid.js)" ++ nl ++
       fence ++ "mermaid" ++ nl ++ "gantt" ++ nl ++ fence) /\
  formatOutput
    (VObj [("formatted_output", VObj [("mermaid_gantt", VStr "gantt")])]) =
  inr (nl ++ nl ++ "GANTT CHART (Mermaid.js)" ++ nl ++
       fence ++ "mermaid" ++ nl ++ "gantt" ++ nl ++ fence).
Proof.
  intros summary full.
  destruct (C8_formatOutput_sections VNull) as (Hnone & _).
  destruct (C8_formatOutput_sections full)
    as (_ & Hfull & _ & Hsummary & Hmarkdown & Hgantt).
  destruct (C8_formatOutput_sections
              (VObj [("formatted_output", VObj [("mermaid_gantt", VStr "gantt")])]))
    as (_ & Hone & Habsent & _).
  split; [|split].
  - apply Hnone. left. reflexivity.
  - rewrite (Hfull eq_refl eq_refl).
    change (JS.prop (JS.prop full "formatted_output") "summary") with summary.
    rewrite (Hsummary summary "2" "7" eq_refl eq_refl eq_refl).
    change (JS.prop (JS.prop full "formatted_output") "markdown") with (VStr "# Plan").
    rewrite (Hmarkdown (VStr "# Plan") "# Plan" eq_refl eq_refl).
    change (JS.prop (JS.prop full "formatted_output") "mermaid_gantt")
      with (VStr "gantt").
    rewrite (Hgantt (VStr "gantt") "gantt" eq_refl eq_refl).
    reflexivity.
  - rewrite (Hone eq_refl eq_refl).
    destruct (Habsent VUndefined eq_refl) as (Hs & Hm & _).
    change (JS.prop (JS.prop (VObj [("formatted_output",
              VObj [("mermaid_gantt", VStr "gantt")])]) "formatted_output") "summary")
      with VUndefined.
    change (JS.prop (JS.prop (VObj [("formatted_output",
              VObj [("mermaid_gantt", VStr "gantt")])]) "formatted_output") "markdown")
      with VUndefined.
    rewrite Hs, Hm. reflexivity.
Defined.

(** C10. [formatOutput] answers with the placeholder exactly when [data] is
    not there or has no [formatted_output] (the value is falsy); in every
    other case it answers with the sections, whatever else [data] holds.
    So a plan with tasks and no [formatted_output] gives the placeholder,
    and a plan whose [formatted_output] has no summary, no markdown and no
    Mermaid source gives the empty string. *)
Theorem C10_placeholder_when_no_formatted_output (data : value) :
  let output := JS.prop data "formatted_output" in
  (JS.truthy data && JS.truthy output = false ->
   formatOutput data = inr "No output available") /\
  (JS.truthy data && JS.truthy output = true ->
   formatOutput data = sections output) /\
  (sections output <> inr "No output available" ->
   (formatOutput data = inr "No output available" <->
    JS.truthy data && JS.truthy output = false)) /\
  (forall (tasks : list value) (others : list (string * value)),
     lookup "formatted_output" others = None ->
     formatOutput (VObj (("dependency_tasks", VArr tasks) :: others)) =
     inr "No output available") /\
  (JS.truthy data && JS.truthy output = true ->
   JS.truthy (JS.prop output "summary") = false ->
   JS.truthy (JS.prop output "markdown") = false ->
   JS.truthy (JS.prop output "mermaid_gantt") = false ->
   formatOutput data = inr "").
Proof.
  intros output. split; [|split; [|split; [|split]]].
  - apply formatOutput_no_output.
  - apply formatOutput_sections.
  - intros Hne. split.
    + intros H. destruct (JS.truthy data && JS.truthy output) eqn:Hp; [|reflexivity].
      rewrite (formatOutput_sections _ Hp) in H. contradiction.
    + apply formatOutput_no_output.
  - intros tasks others Hnone. apply formatOutput_no_output.
    simpl. rewrite Hnone. reflexivity.
  - intros Hp Hs Hm Hg. rewrite (formatOutput_sections _ Hp).
    unfold sections, summary_section, markdown_section, gantt_section.
    fold output. now rewrite Hs, Hm, Hg.
Qed.

Lemma C10_placeholder_when_no_formatted_output_witness :
  let task := VObj [("id", VNum (Number_of_N 1)); ("name", VStr "Design")] in
  formatOutput (VObj [("dependency_tasks", VArr [task])]) =
    inr "No output available" /\
  formatOutput (VObj [("formatted_output", VObj []); ("dependency_tasks", VArr [task])]) =
    inr "" /\
  formatOutput VUndefined = inr "No output available" /\
  formatOutput (VObj [("formatted_output", VObj [("markdown", VStr "# Plan")])]) <>
    inr "No output available".
Proof.
  intros task.
  destruct (C10_placeholder_when_no_formatted_output
              (VObj [("dependency_tasks", VArr [task])])) as (_ & _ & _ & Htasks & _).
  destruct (C10_placeholder_when_no_formatted_output
              (VObj [("formatted_output", VObj []); ("dependency_tasks", VArr [task])]))
    as (_ & _ & _ & _ & Hempty).
  destruct (C10_placeholder_when_no_formatted_output VUndefined) as (Hnone & _).
  destruct (C10_placeholder_when_no_formatted_output
              (VObj [("formatted_output", VObj [("markdown", VStr "# Plan")])]))
    as (_ & _ & Hiff & _).
  split; [|split; [|split]].
  - apply (Htasks [task] []). reflexivity.
  - apply Hempty; reflexivity.
  - apply Hnone. reflexivity.
  - intros H. apply Hiff in H; discriminate.
Defined.

(** ** WorkflowGraph *)

Lemma prop_truthy (v : value) (k : string) :
  JS.truthy (JS.prop v k) = true -> JS.truthy v = true.
Proof. destruct v; simpl; try discriminate. reflexivity. Qed.

Lemma WorkflowGraph_placeholder (planData : value) :
  JS.falsy planData = true \/
  JS.falsy (JS.prop planData "dependency_tasks") = true \/
  JS.prop planData "dependency_tasks" = VArr [] ->
  WorkflowGraph planData = inr (Placeholder "No tasks to visualize").
Proof.
  intros H. unfold WorkflowGraph.
  destruct (JS.falsy planData) eqn:Hp; [reflexivity|].
  assert (Hn : JS.nullish planData = false).
  { apply truthy_not_nullish. rewrite falsy_truthy in Hp.
    now apply negb_false_iff in Hp. }
  rewrite !(get_not_nullish _ _ Hn). simpl.
  destruct H as [H|[H|H]].
  - discriminate.
  - now rewrite H.
  - now rewrite H.
Qed.

(** The callback of [tasks.map] returns the node of each task that can be
    drawn, so [map] returns as many nodes as there are tasks, in their
    order. *)
Lemma mapi_nodes (total : nat) (tasks : list value) (index : nat) :
  Forall drawable tasks ->
  exists nodes,
    mapi (fun task index =>
            id <- JS.get task "id" ;;
            key <- React.key id ;;
            priority <- JS.get task "priority" ;;
            name <- JS.get task "name" ;;
            days <- JS.get task "estimated_duration_days" ;;
            category <- JS.get task "category" ;;
            ret (Node key (getPriorityColor priority) (index + 1) name days category
                   (index <? total - 1)%nat))
         tasks index = inr nodes /\
    List.length nodes = List.length tasks /\
    forall i task,
      nth_error tasks i = Some task ->
      exists n, nth_error nodes i = Some n /\ drawn_as total (index + i) task n.
Proof.
  intros H. revert index.
  induction H as [|task tasks (Hn & k & Hk) _ IH]; intros index.
  - exists []. repeat split. intros [|i] task H; discriminate.
  - destruct (IH (S index)) as (nodes & Hmap & Hlen & Hnth).
    eexists (Node k _ _ _ _ _ _ :: nodes). split; [|split].
    + simpl. rewrite !(get_not_nullish _ _ Hn). simpl. rewrite Hk. simpl.
      simpl in Hmap. rewrite Hmap. reflexivity.
    + simpl. now rewrite Hlen.
    + intros [|i] t Hi; simpl in Hi.
      * injection Hi as <-. eexists. split; [reflexivity|].
        rewrite Nat.add_0_r. unfold drawn_as. simpl.
        repeat (split; [assumption || reflexivity|]).
        rewrite Nat.ltb_lt. lia.
      * destruct (Hnth i t Hi) as (n & Hn' & Hdrawn).
        exists n. split; [exact Hn'|].
        now replace (index + S i) with (S index + i) by lia.
Qed.

Lemma WorkflowGraph_column (planData : value) (tasks : list value) :
  JS.prop planData "dependency_tasks" = VArr tasks ->
  tasks <> [] ->
  Forall drawable tasks ->
  exists nodes,
    WorkflowGraph planData = inr (Column nodes) /\
    List.length nodes = List.length tasks /\
    forall i task,
      nth_error tasks i = Some task ->
      exists n,
        nth_error nodes i = Some n /\ drawn_as (List.length tasks) i task n.
Proof.
  intros Hp Hne Hall.
  destruct (mapi_nodes (List.length tasks) tasks 0 Hall) as (nodes & Hm & Hlen & Hnth).
  exists nodes. split; [|split; [exact Hlen | exact Hnth]].
  unfold WorkflowGraph.
  assert (Ht : JS.truthy planData = true).
  { apply (prop_truthy _ "dependency_tasks"). now rewrite Hp. }
  rewrite falsy_truthy, Ht. simpl.
  rewrite !(get_not_nullish _ _ (truthy_not_nullish _ Ht)). simpl.
  rewrite Hp.
  destruct tasks as [|task tasks]; [contradiction|].
  unfold Array_map, Array_length. simpl in Hm |- *. now rewrite Hm.
Qed.

Lemma getPriorityColor_other (priority : value) :
  priority <> VStr "high" -> priority <> VStr "medium" -> priority <> VStr "low" ->
  getPriorityColor priority = "#6b7280".
Proof.
  intros Hh Hm Hl. unfold getPriorityColor, JS.is_string.
  destruct priority as [| |b|n|s|l|f]; try reflexivity.
  destruct (String.eqb_spec s "high"); [subst; contradiction|].
  destruct (String.eqb_spec s "medium"); [subst; contradiction|].
  destruct (String.eqb_spec s "low"); [subst; contradiction|].
  reflexivity.
Qed.

(** C7. [WorkflowGraph] is a function of [planData].  When there is no
    plan, no task sequence, or an empty one, it returns the placeholder
    and does not throw.  For a non-empty sequence of tasks (none of them
    null, each with an [id] that makes a key) it returns one node per
    task, in the order of the array; the node of the task at position [i]
    (from 0) bears the number [i + 1] whatever the [id] of the task, has
    the colour that [getPriorityColor] gives for the [priority] of the
    task and for nothing else, and has the arrow below it unless the task
    is the last.  The colours are #ef4444 for high, #f59e0b for medium,
    #10b981 for low and #6b7280 for anything else. *)
Theorem C7_workflow_graph (planData : value) (tasks : list value) :
  (JS.falsy planData = true \/
   JS.falsy (JS.prop planData "dependency_tasks") = true \/
   JS.prop planData "dependency_tasks" = VArr [] ->
   WorkflowGraph planData = inr (Placeholder "No tasks to visualize")) /\
  (JS.prop planData "dependency_tasks" = VArr tasks ->
   tasks <> [] ->
   Forall drawable tasks ->
   exists nodes,
     WorkflowGraph planData = inr (Column nodes) /\
     List.length nodes = List.length tasks /\
     forall i task,
       nth_error tasks i = Some task ->
       exists n,
         nth_error nodes i = Some n /\
         step n = i + 1 /\
         color n = getPriorityColor (JS.prop task "priority") /\
         React.key (JS.prop task "id") = inr (key n) /\
         name n = JS.prop task "name" /\
         days n = JS.prop task "estimated_duration_days" /\
         category n = JS.prop task "category" /\
         (arrow n = true <-> i + 1 < List.length tasks)) /\
  (getPriorityColor (VStr "high") = "#ef4444" /\
   getPriorityColor (VStr "medium") = "#f59e0b" /\
   getPriorityColor (VStr "low") = "#10b981" /\
   forall priority,
     priority <> VStr "high" -> priority <> VStr "medium" ->
     priority <> VStr "low" ->
     getPriorityColor priority = "#6b7280").
Proof.
  split; [|split].
  - apply WorkflowGraph_placeholder.
  - intros Hp Hne Hall.
    destruct (WorkflowGraph_column _ _ Hp Hne Hall) as (nodes & Hrun & Hlen & Hnth).
    exists nodes. split; [exact Hrun|]. split; [exact Hlen|].
    intros i task Hi. destruct (Hnth i task Hi) as (n & Hn & Hdrawn).
    exists n. split; [exact Hn|]. unfold drawn_as in Hdrawn. tauto.
  - repeat (split; [reflexivity|]). apply getPriorityColor_other.
Qed.

Lemma C7_workflow_graph_witness :
  let design :=
    VObj [("id", VNum (Number_of_N 1)); ("name", VStr "Design");
          ("estimated_duration_days", VNum (Number_of_N 2));
          ("category", VStr "planning"); ("priority", VStr "high")] in
  let build :=
    VObj [("id", VNum (Number_of_N 2)); ("name", VStr "Build");
          ("estimated_duration_days", VNum (Number_of_N 5));
          ("category", VStr "dev"); ("priority", VStr "medium")] in
  WorkflowGraph VNull = inr (Placeholder "No tasks to visualize") /\
  WorkflowGraph (VObj [("dependency_tasks", VArr [])]) =
    inr (Placeholder "No tasks to visualize") /\
  (exists nodes,
     WorkflowGraph (VObj [("dependency_tasks", VArr [design; build])]) =
       inr (Column nodes) /\
     List.length nodes = 2 /\
     (exists n, nth_error nodes 0 = Some n /\
                step n = 1 /\ color n = "#ef4444" /\ arrow n = true) /\
     (exists n, nth_error nodes 1 = Some n /\
                step n = 2 /\ color n = "#f59e0b" /\ arrow n = false)) /\
  getPriorityColor (VStr "urgent") = "#6b7280".
Proof.
  intros design build.
  destruct (C7_workflow_graph VNull []) as (Hnone & _).
  destruct (C7_workflow_graph (VObj [("dependency_tasks", VArr [])]) [])
    as (Hempty & _).
  destruct (C7_workflow_graph (VObj [("dependency_tasks", VArr [design; build])])
              [design; build]) as (_ & Hnodes & _ & _ & _ & Hother).
  split; [|split; [|split]].
  - apply Hnone. left. reflexivity.
  - apply Hempty. right. right. reflexivity.
  - destruct Hnodes as (nodes & Hrun & Hlen & Hnth).
    + reflexivity.
    + discriminate.
    + repeat constructor; eexists; reflexivity.
    + exists nodes. split; [exact Hrun|]. split; [exact Hlen|]. split.
      * destruct (Hnth 0 design eq_refl)
          as (n & Hn & Hstep & Hcolor & _ & _ & _ & _ & Harrow).
        exists n. repeat split; try assumption. apply Harrow. simpl. lia.
      * destruct (Hnth 1 build eq_refl)
          as (n & Hn & Hstep & Hcolor & _ & _ & _ & _ & Harrow).
        exists n. repeat split; try assumption.
        destruct (arrow n); [|reflexivity].
        assert (1 + 1 < 2) by (apply Harrow; reflexivity). lia.
  - apply Hother; discriminate.
Defined.

(** ** The error boundary *)

(** What [App] shows outside the workflow card, or the error that it
    throws, depends neither on the diagram component nor on the state of
    the boundary. *)
Lemma App_outside (Graph Graph' : value -> result element) (s : app_state)
    (b b' : ErrorBoundary.state) :
  outside (fst (fst (App Graph s b))) = outside (fst (fst (App Graph' s b'))).
Proof.
  unfold App.
  destruct b as [[|] eb], b' as [[|] eb'];
    destruct (JS.truthy (planData s)) eqn:Hplan; rewrite ?Hplan;
    destruct (loading s); simpl;
    destruct (formatOutput (planData s)); simpl; try reflexivity;
    destruct (Graph (planData s)), (Graph' (planData s)); reflexivity.
Qed.

(** C9. When the diagram component throws [e] while the page renders, the
    boundary takes the error: [App] still returns its page, the workflow
    card shows the panel with the message of [e] and the button "Try
    Again", and the error is reported on the console and kept in the state
    of the boundary.  The button resets that state to no error, and a
    render after the reset shows the diagram if it now renders.  Outside
    the workflow card the page is what it is with any other diagram
    component and in any state of the boundary; in particular the report
    is the text that [formatOutput] gives. *)
Theorem C9_diagram_error_contained (Graph : value -> result element)
    (s : app_state) (b : ErrorBoundary.state) (e : exn) (text : string)
    (Hplan : JS.truthy (planData s) = true)
    (Hreport : loading s = false -> formatOutput (planData s) = inr text)
    (Hfresh : ErrorBoundary.hasError b = false)
    (Hthrow : Graph (planData s) = inl e) :
  let panel :=
    ErrorBoundary.Panel "Something went wrong with the visualization"
      (Some (message e)) "Try Again" ErrorBoundary.constructor in
  (exists p,
     App Graph s b =
       (inr p, ErrorBoundary.getDerivedStateFromError e,
        [("Error caught by boundary:", e)]) /\
     workflow_card p = Some (React.Fallback panel) /\
     outside_workflow p =
       ((if JS.truthy (error s) then Shown (error s) else Hidden (error s)),
        Shown (if loading s then Working "Agents are working on your plan..."
               else Report text))) /\
  (exists p,
     fst (fst (App Graph s (ErrorBoundary.getDerivedStateFromError e))) = inr p /\
     workflow_card p = Some (React.Fallback panel)) /\
  ErrorBoundary.hasError (ErrorBoundary.onClick panel) = false /\
  ErrorBoundary.error (ErrorBoundary.onClick panel) = None /\
  (forall Graph' diagram,
     Graph' (planData s) = inr diagram ->
     exists p,
       App Graph' s (ErrorBoundary.onClick panel) =
         (inr p, ErrorBoundary.onClick panel, []) /\
       workflow_card p = Some (React.Child diagram)) /\
  (forall Graph' b',
     outside (fst (fst (App Graph s b))) =
     outside (fst (fst (App Graph' s b')))).
Proof.
  intros panel.
  split; [|split; [|split; [|split; [|split]]]].
  - unfold App. rewrite !Hplan, Hthrow.
    destruct b as [has eb]. simpl in Hfresh. subst has.
    destruct (loading s); simpl.
    + eexists. repeat split.
    + rewrite (Hreport eq_refl). simpl. eexists. repeat split.
  - unfold App. rewrite !Hplan.
    destruct (loading s); simpl.
    + eexists. split; reflexivity.
    + rewrite (Hreport eq_refl). simpl. eexists. split; reflexivity.
  - reflexivity.
  - reflexivity.
  - intros Graph' diagram Hok. unfold App. rewrite !Hplan, Hok.
    destruct (loading s); simpl.
    + eexists. split; reflexivity.
    + rewrite (Hreport eq_refl). simpl. eexists. split; reflexivity.
  - intros Graph' b'. apply App_outside.
Qed.

Lemma C9_diagram_error_contained_witness :
  let plan :=
    VObj [("formatted_output", VObj [("markdown", VStr "# Plan")]);
          ("dependency_tasks", VArr [VNull])] in
  let s := AppState "build" false plan VNull VNull (VStr "") in
  let e := TypeError "Cannot read properties of null or undefined (reading 'id')" in
  WorkflowGraph plan = inl e /\
  exists p,
    App WorkflowGraph s ErrorBoundary.constructor =
      (inr p, ErrorBoundary.State true (Some e), [("Error caught by boundary:", e)]) /\
    workflow_card p =
      Some (React.Fallback
              (ErrorBoundary.Panel "Something went wrong with the visualization"
                 (Some "Cannot read properties of null or undefined (reading 'id')")
                 "Try Again" (ErrorBoundary.State false None))) /\
    outside_workflow p = (Hidden VNull, Shown (Report "# Plan")).
Proof.
  intros plan s e. split; [reflexivity|].
  destruct (C9_diagram_error_contained WorkflowGraph s ErrorBoundary.constructor e
              "# Plan" eq_refl (fun _ => eq_refl) eq_refl eq_refl)
    as ((p & Happ & Hcard & Hout) & _).
  exists p. split; [exact Happ|]. split; [exact Hcard|]. exact Hout.
Defined.

(** * Further properties of the controller *)

Lemma more_reads_more_reads (a b : nat) (w : world) :
  more_reads a (more_reads b w) = more_reads (a + b) w.
Proof. unfold more_reads. simpl. f_equal. lia. Qed.

(** The read loop does what the lines of all the chunks do, in their
    order, counts one read per chunk and one for the end, and ends as the
    stream ends. *)
Lemma readLoop_outcome (texts : list string) (ending : option exn) (w : world) :
  readLoop texts ending w =
  (match ending with Some e => inl e | None => inr tt end,
   more_reads (List.length texts + 1)
     (exec (forEach processLine (lines_of texts)) w)).
Proof.
  revert w. induction texts as [|c texts IH]; intros w.
  - destruct ending; destruct w; reflexivity.
  - rewrite readLoop_cons, IH. f_equal.
    unfold lines_of. simpl flat_map.
    rewrite exec_forEach_app, !forEach_processLine_reads, more_reads_more_reads.
    f_equal. simpl. lia.
Qed.

(** An event, a line and so the lines of a stream leave the requests, the
    reads, the description and the loading flag as they are. *)
Lemma dispatch_keeps (data : value) (w : world) :
  requests (exec (dispatch data) w) = requests w /\
  reads (exec (dispatch data) w) = reads w /\
  projectInput (ui (exec (dispatch data) w)) = projectInput (ui w) /\
  loading (ui (exec (dispatch data) w)) = loading (ui w).
Proof.
  destruct (JS.nullish data) eqn:Hn.
  - unfold exec, dispatch, status_is, lift, JS.get. simpl. rewrite Hn.
    repeat split.
  - unfold exec, dispatch, status_is, lift. simpl.
    rewrite !(get_not_nullish _ _ Hn). simpl.
    destruct (JS.is_string (JS.prop data "status") "running"); simpl;
      [repeat split|].
    destruct (JS.is_string (JS.prop data "status") "completed"); simpl;
      [repeat split|].
    destruct (JS.is_string (JS.prop data "status") "error"); simpl;
      repeat split.
Qed.

Lemma processLine_keeps (line : string) (w : world) :
  requests (exec (processLine line) w) = requests w /\
  reads (exec (processLine line) w) = reads w /\
  projectInput (ui (exec (processLine line) w)) = projectInput (ui w) /\
  loading (ui (exec (processLine line) w)) = loading (ui w).
Proof.
  unfold exec, processLine. destruct (startsWith line "data: "); [|repeat split].
  destruct (JSON.parse (slice 6 line)) as [e|data].
  - repeat split.
  - pose proof (dispatch_keeps data w) as H. unfold exec in H.
    unfold try_catch, lift. simpl.
    destruct (dispatch data w) as [[e|[]] w']; simpl in *; exact H.
Qed.

Lemma forEach_processLine_requests (lines : list string) (w : world) :
  requests (exec (forEach processLine lines) w) = requests w /\
  reads (exec (forEach processLine lines) w) = reads w /\
  projectInput (ui (exec (forEach processLine lines) w)) = projectInput (ui w) /\
  loading (ui (exec (forEach processLine lines) w)) = loading (ui w).
Proof.
  revert w. induction lines as [|l lines IH]; intros w; [repeat split|].
  rewrite exec_forEach_cons.
  destruct (IH (exec (processLine l) w)) as (H1 & H2 & H3 & H4).
  destruct (processLine_keeps l w) as (K1 & K2 & K3 & K4).
  rewrite H1, H2, H3, H4. auto.
Qed.

(** What a submit with a description does, whatever the network does: it
    returns normally, and the world it leaves is some world [w'] with
    [loading] set to false, in which the request of this submit has been
    added to the requests and the description is as it was. *)
Lemma handleSubmit_outcome (net : network) (w : world) :
  trim (projectInput (ui w)) <> "" ->
  exists w',
    handleSubmit net w = (inr tt, updated (with_loading false) w') /\
    requests w' =
      Request endpoint "POST" "application/json" (projectInput (ui w)) :: requests w /\
    projectInput (ui w') = projectInput (ui w).
Proof.
  intros Hin. unfold handleSubmit. rewrite (falsy_trim _ Hin).
  unfold try_finally, try_catch, fetch. simpl.
  destruct net as [r|e]; simpl.
  - destruct (ok r); simpl.
    + destruct (body r) as [[texts ending]|]; simpl.
      * rewrite readLoop_outcome.
        match goal with
        | |- context [exec (forEach processLine (lines_of texts)) ?W] =>
            destruct (forEach_processLine_requests (lines_of texts) W)
              as (Hrq & _ & Hin' & _);
            destruct (exec (forEach processLine (lines_of texts)) W)
              as [s rq rd c]
        end.
        simpl in Hrq, Hin'. subst rq.
        destruct ending as [e|]; simpl; eexists; (split; [reflexivity|]);
          simpl; rewrite Hin'; split; reflexivity.
      * eexists. split; [reflexivity|]. split; reflexivity.
    + eexists. split; [reflexivity|]. split; reflexivity.
  - eexists. split; [reflexivity|]. split; reflexivity.
Qed.

(** X1. A submit never throws, whatever the network does and whatever the
    stream carries; and a submit with a description always ends with
    [loading] false. *)
Theorem X1_submit_returns_and_stops_loading (net : network) (w : world) :
  fst (handleSubmit net w) = inr tt /\
  (trim (projectInput (ui w)) <> "" -> loading (ui (submit net w)) = false).
Proof.
  split.
  - destruct (String.eqb_spec (trim (projectInput (ui w))) "") as [Hb|Hn].
    + unfold handleSubmit. rewrite Hb. reflexivity.
    + destruct (handleSubmit_outcome net w Hn) as (w' & -> & _). reflexivity.
  - intros Hn. unfold submit, exec.
    destruct (handleSubmit_outcome net w Hn) as (w' & -> & _). reflexivity.
Qed.

Lemma X1_submit_returns_and_stops_loading_witness :
  let net :=
    Responds (Response 200 (Some (Stream
      [q "data: {'status':'running','agent':'planner','message':'b'}" ++ nl]
      (Some (NetworkError "connection reset"))))) in
  fst (handleSubmit net (start "build")) = inr tt /\
  loading (ui (submit net (start "build"))) = false.
Proof.
  intros net.
  destruct (X1_submit_returns_and_stops_loading net (start "build")) as (Hr & Hl).
  split; [exact Hr|]. apply Hl. discriminate.
Defined.

(** X2. A submit with a description sends exactly one request, whatever
    the network does: a POST to the endpoint with a JSON body that
    carries the description as it is (not trimmed) as
    [project_statement]. *)
Theorem X2_one_request_per_submit (net : network) (w : world)
    (Hinput : trim (projectInput (ui w)) <> "") :
  requests (submit net w) =
  Request "http://localhost:8000/api/generate-plan" "POST" "application/json"
    (projectInput (ui w)) :: requests w.
Proof.
  unfold submit, exec.
  destruct (handleSubmit_outcome net w Hinput) as (w' & -> & Hrq & _).
  exact Hrq.
Qed.

Lemma X2_one_request_per_submit_witness :
  requests (submit (Unreachable (NetworkError "refused")) (start "  build  ")) =
  [Request "http://localhost:8000/api/generate-plan" "POST" "application/json"
     "  build  "].
Proof.
  apply (X2_one_request_per_submit (Unreachable (NetworkError "refused"))
           (start "  build  ")).
  discriminate.
Defined.

(** X3. When the request cannot be made (the promise of [fetch] is
    rejected with [e]), a submit with a description shows the fixed
    message, clears the indicator and the plan, ends with [loading] false,
    writes [e] to the console and reads nothing. *)
Theorem X3_fetch_rejected (e : exn) (w : world)
    (Hinput : trim (projectInput (ui w)) <> "") :
  handleSubmit (Unreachable e) w =
  (inr tt,
   World (AppState (projectInput (ui w)) false VNull (VStr connect_failed)
            VNull (VStr ""))
         (Request endpoint "POST" "application/json" (projectInput (ui w))
            :: requests w)
         (reads w)
         (("Error:", e) :: console w)).
Proof.
  unfold handleSubmit. rewrite (falsy_trim _ Hinput). reflexivity.
Qed.

Lemma X3_fetch_rejected_witness :
  ui (submit (Unreachable (NetworkError "Failed to fetch")) (start "build")) =
  AppState "build" false VNull (VStr connect_failed) VNull (VStr "").
Proof.
  unfold submit, exec.
  rewrite (X3_fetch_rejected (NetworkError "Failed to fetch") (start "build")).
  - reflexivity.
  - discriminate.
Defined.

(** X4. A response with a success status and no body (as for status 204)
    is handled like a failed connection: reading [getReader] of null
    throws, and the page shows the fixed message; nothing is read. *)
Theorem X4_success_without_body (r : response) (w : world)
    (Hinput : trim (projectInput (ui w)) <> "")
    (Hstatus : ok r = true)
    (Hbody : body r = None) :
  handleSubmit (Responds r) w =
  (inr tt,
   World (AppState (projectInput (ui w)) false VNull (VStr connect_failed)
            VNull (VStr ""))
         (Request endpoint "POST" "application/json" (projectInput (ui w))
            :: requests w)
         (reads w)
         (("Error:", TypeError "Cannot read properties of null (reading 'getReader')")
            :: console w)).
Proof.
  unfold handleSubmit. rewrite (falsy_trim _ Hinput).
  unfold try_finally, try_catch, fetch. simpl. rewrite Hstatus, Hbody.
  reflexivity.
Qed.

Lemma X4_success_without_body_witness :
  ui (submit (Responds (Response 204 None)) (start "build")) =
  AppState "build" false VNull (VStr connect_failed) VNull (VStr "").
Proof.
  unfold submit, exec.
  rewrite (X4_success_without_body (Response 204 None) (start "build")).
  - reflexivity.
  - discriminate.
  - reflexivity.
  - reflexivity.
Defined.

(** A submit with a description that is answered with a success status
    and a body. *)
Lemma handleSubmit_body (r : response) (texts : list string)
    (ending : option exn) (w : world) :
  trim (projectInput (ui w)) <> "" ->
  ok r = true ->
  body r = Some (Stream texts ending) ->
  handleSubmit (Responds r) w =
  let w' :=
    more_reads (List.length texts + 1)
      (exec (forEach processLine (lines_of texts)) (connecting w)) in
  (inr tt,
   updated (with_loading false)
     match ending with
     | None => w'
     | Some e =>
         updated (with_agentMessage (VStr ""))
           (updated (with_currentAgent VNull)
              (logged "Error:" e
                 (updated (with_error (VStr connect_failed)) w')))
     end).
Proof.
  intros Hin Hok Hbody. unfold handleSubmit.
  rewrite (falsy_trim _ Hin). unfold try_finally, try_catch, fetch.
  simpl. rewrite Hok, Hbody. simpl.
  change (World _ _ (reads w) (console w)) with (connecting w).
  rewrite readLoop_outcome. destruct ending; reflexivity.
Qed.

(** X5. For every partition of the stream into chunks, a submit that is
    answered with a success status and a stream that ends does to the
    page and the console what the lines of the chunks do, each chunk
    split on its own, one line after the other from the connecting state;
    then it sets [loading] to false.  It reads once per chunk and once
    more, and the page is left as the last events left it. *)
Theorem X5_stream_is_lines_of_chunks (r : response) (texts : list string)
    (w : world)
    (Hinput : trim (projectInput (ui w)) <> "")
    (Hstatus : ok r = true)
    (Hbody : body r = Some (Stream texts None)) :
  handleSubmit (Responds r) w =
  (inr tt,
   updated (with_loading false)
     (more_reads (List.length texts + 1)
        (exec (forEach processLine (flat_map (split LF) texts)) (connecting w)))).
Proof. exact (handleSubmit_body r texts None w Hinput Hstatus Hbody). Qed.

Lemma X5_stream_is_lines_of_chunks_witness :
  let f1 := q "data: {'status':'running','agent':'planner','message':'b'}" in
  let f2 := q "data: {'status':'completed','data':{'tasks':3}}" in
  submit (streaming [f1 ++ nl ++ f2; nl ++ f1]) (start "build") =
  World (AppState "build" false (VObj [("tasks", VNum (Number_of_N 3))]) VNull
           (VStr "planner") (VStr "b"))
        [Request endpoint "POST" "application/json" "build"] 3 [].
Proof.
  intros f1 f2. unfold submit, exec, streaming.
  rewrite (X5_stream_is_lines_of_chunks _ [f1 ++ nl ++ f2; nl ++ f1]).
  - reflexivity.
  - discriminate.
  - reflexivity.
  - reflexivity.
Defined.

(** X6. When a read fails with [e] after some chunks, what the lines of
    those chunks did to the plan and the console stays, but the error,
    also one that an [error] event had set, is replaced by the fixed
    message; the indicator is cleared, [loading] ends false and [e] is
    written to the console. *)
Theorem X6_read_fails_midway (r : response) (texts : list string) (e : exn)
    (w : world)
    (Hinput : trim (projectInput (ui w)) <> "")
    (Hstatus : ok r = true)
    (Hbody : body r = Some (Stream texts (Some e))) :
  let w' := exec (forEach processLine (flat_map (split LF) texts)) (connecting w) in
  handleSubmit (Responds r) w =
  (inr tt,
   World (AppState (projectInput (ui w)) false (planData (ui w'))
            (VStr connect_failed) VNull (VStr ""))
         (Request endpoint "POST" "application/json" (projectInput (ui w))
            :: requests w)
         (List.length texts + 1 + reads w)
         (("Error:", e) :: console w')).
Proof.
  cbv zeta. rewrite (handleSubmit_body r texts (Some e) w Hinput Hstatus Hbody).
  fold (lines_of texts).
  destruct (forEach_processLine_requests (lines_of texts) (connecting w))
    as (Hrq & Hrd & Hin & _).
  destruct (exec (forEach processLine (lines_of texts)) (connecting w))
    as [s rq rd c].
  simpl in Hrq, Hrd, Hin. subst rq rd.
  destruct s. simpl in Hin. subst. reflexivity.
Qed.

Lemma X6_read_fails_midway_witness :
  let f1 := q "data: {'status':'completed','data':{'tasks':3}}" in
  let f2 := q "data: {'status':'error','message':'planner crashed'}" in
  submit (Responds (Response 200 (Some (Stream [f1 ++ nl; f2 ++ nl]
            (Some (NetworkError "connection reset"))))))
         (start "build") =
  World (AppState "build" false (VObj [("tasks", VNum (Number_of_N 3))])
           (VStr connect_failed) VNull (VStr ""))
        [Request endpoint "POST" "application/json" "build"] 3
        [("Error:", NetworkError "connection reset")].
Proof.
  intros f1 f2. unfold submit, exec.
  rewrite (X6_read_fails_midway _ [f1 ++ nl; f2 ++ nl]
             (NetworkError "connection reset")).
  - reflexivity.
  - discriminate.
  - reflexivity.
  - reflexivity.
Defined.

(** X7. A frame that parses to a value without a known [status] (no
    [status], or one that is not the string running, completed or error:
    the comparison is exact) changes nothing at all and is not reported.
    A frame that parses to null is reported on the console like a frame
    that does not parse, and changes no page state either. *)
Theorem X7_frames_without_event (payload : string) (data : value) (w : world)
    (Hparse : JSON.parse payload = inr data) :
  (JS.nullish data = false ->
   JS.is_string (JS.prop data "status") "running" = false ->
   JS.is_string (JS.prop data "status") "completed" = false ->
   JS.is_string (JS.prop data "status") "error" = false ->
   processLine (frame payload) w = (inr tt, w)) /\
  (JS.nullish data = true ->
   processLine (frame payload) w =
   (inr tt,
    logged "Error parsing SSE data:"
      (TypeError "Cannot read properties of null or undefined (reading 'status')")
      w)).
Proof.
  split.
  - intros Hn H1 H2 H3. rewrite (processLine_frame _ _ _ Hparse Hn).
    unfold dispatch, status_is, lift. simpl.
    rewrite !(get_not_nullish _ _ Hn). simpl. rewrite H1. simpl.
    rewrite H2. simpl. rewrite H3. reflexivity.
  - intros Hn. unfold processLine.
    rewrite startsWith_frame, slice_frame, Hparse.
    unfold try_catch, dispatch, status_is, lift, JS.get. simpl.
    rewrite Hn. reflexivity.
Qed.

Lemma X7_frames_without_event_witness :
  let w := connecting (start "build") in
  processLine (frame (q "{'status':'Running','agent':'planner'}")) w = (inr tt, w) /\
  processLine (frame (q "{'agent':'planner','message':'b'}")) w = (inr tt, w) /\
  processLine (frame "[1, 2]") w = (inr tt, w) /\
  ui (exec (processLine (frame "null")) w) = ui w /\
  console (exec (processLine (frame "null")) w) =
    [("Error parsing SSE data:",
      TypeError "Cannot read properties of null or undefined (reading 'status')")].
Proof.
  intros w.
  destruct (X7_frames_without_event (q "{'status':'Running','agent':'planner'}")
              (VObj [("status", VStr "Running"); ("agent", VStr "planner")]) w eq_refl)
    as (Hcase & _).
  destruct (X7_frames_without_event (q "{'agent':'planner','message':'b'}")
              (VObj [("agent", VStr "planner"); ("message", VStr "b")]) w eq_refl)
    as (Hmissing & _).
  destruct (X7_frames_without_event "[1, 2]"
              (VArr [VNum (Number_of_N 1); VNum (Number_of_N 2)]) w eq_refl)
    as (Harray & _).
  destruct (X7_frames_without_event "null" VNull w eq_refl) as (_ & Hnull).
  split; [apply Hcase; reflexivity|].
  split; [apply Hmissing; reflexivity|].
  split; [apply Harray; reflexivity|].
  unfold exec. rewrite (Hnull eq_refl). split; reflexivity.
Defined.

(** X8. A submit with a description starts from a clean page: what it
    does depends on the page state only through the description.  The
    plan, the error, the indicator and the loading flag that were there
    before have no effect on what is there after. *)
Theorem X8_submit_starts_clean (net : network) (s s' : app_state)
    (rq : list request) (rd : nat) (c : list (string * exn))
    (Hinput : trim (projectInput s) <> "")
    (Hsame : projectInput s' = projectInput s) :
  handleSubmit net (World s' rq rd c) = handleSubmit net (World s rq rd c).
Proof.
  unfold handleSubmit. simpl. rewrite Hsame, (falsy_trim _ Hinput).
  unfold try_finally, try_catch, fetch. simpl.
  destruct s, s'. simpl in *. subst. reflexivity.
Qed.

Lemma X8_submit_starts_clean_witness :
  let old :=
    AppState "build" true (VObj [("tasks", VNum (Number_of_N 3))])
      (VStr "planner crashed") (VStr "planner") (VStr "b") in
  let net := streaming [q "data: {'status':'running','agent':'timeline','message':'c'}"] in
  submit net (World old [] 0 []) = submit net (start "build") /\
  planData (ui (submit net (World old [] 0 []))) = VNull /\
  error (ui (submit net (World old [] 0 []))) = VNull.
Proof.
  intros old net. unfold submit, exec, start.
  rewrite (X8_submit_starts_clean net (initial "build") old [] 0 []).
  - repeat split.
  - discriminate.
  - reflexivity.
Defined.

(** X9. Of two events of the same kind the later one wins entirely:
    dispatching both leaves the world that dispatching the later one
    alone leaves. *)
Theorem X9_later_event_overrides (kind : string) (first later : value) (w : world)
    (Hkind : kind = "running" \/ kind = "completed" \/ kind = "error")
    (Hfirst : JS.get first "status" = inr (VStr kind))
    (Hlater : JS.get later "status" = inr (VStr kind)) :
  exec (dispatch later) (exec (dispatch first) w) = exec (dispatch later) w.
Proof.
  unfold exec. destruct Hkind as [ -> | [ -> | -> ] ].
  - now rewrite (dispatch_running _ _ Hfirst), !(dispatch_running _ _ Hlater).
  - now rewrite (dispatch_completed _ _ Hfirst), !(dispatch_completed _ _ Hlater).
  - now rewrite (dispatch_error _ _ Hfirst), !(dispatch_error _ _ Hlater).
Qed.

Lemma X9_later_event_overrides_witness :
  let w := connecting (start "build") in
  exec (dispatch (running "planner" "b")) (exec (dispatch (running "system" "a")) w) =
    exec (dispatch (running "planner" "b")) w /\
  exec (dispatch (completed (VStr "second"))) (exec (dispatch (completed (VStr "first"))) w) =
    exec (dispatch (completed (VStr "second"))) w.
Proof.
  intros w. split.
  - apply (X9_later_event_overrides "running"); [left|..]; reflexivity.
  - apply (X9_later_event_overrides "completed"); [right; left|..]; reflexivity.
Defined.

(** X10. No event ends the stream for the controller.  A [running] event
    after a [completed] one shows the indicator again and leaves the
    plan; a [completed] event after an [error] one stores its plan and
    leaves the error. *)
Theorem X10_events_after_a_final_one (data later : value) (w : world) :
  (JS.get data "status" = inr (VStr "completed") ->
   JS.get later "status" = inr (VStr "running") ->
   let w' := exec (dispatch later) (exec (dispatch data) w) in
   planData (ui w') = JS.prop data "data" /\
   currentAgent (ui w') = JS.prop later "agent" /\
   agentMessage (ui w') = JS.prop later "message") /\
  (JS.get data "status" = inr (VStr "error") ->
   JS.get later "status" = inr (VStr "completed") ->
   let w' := exec (dispatch later) (exec (dispatch data) w) in
   error (ui w') = JS.prop data "message" /\
   planData (ui w') = JS.prop later "data").
Proof.
  unfold exec. split; intros Hd Hl.
  - rewrite (dispatch_completed _ _ Hd), (dispatch_running _ _ Hl). repeat split.
  - rewrite (dispatch_error _ _ Hd), (dispatch_completed _ _ Hl). repeat split.
Qed.

Lemma X10_events_after_a_final_one_witness :
  let w := connecting (start "build") in
  let plan := VObj [("tasks", VNum (Number_of_N 3))] in
  currentAgent (ui (exec (dispatch (running "formatter" "late"))
                      (exec (dispatch (completed plan)) w))) = VStr "formatter" /\
  planData (ui (exec (dispatch (running "formatter" "late"))
                  (exec (dispatch (completed plan)) w))) = plan /\
  error (ui (exec (dispatch (completed plan))
               (exec (dispatch (failed "planner crashed")) w))) = VStr "planner crashed" /\
  planData (ui (exec (dispatch (completed plan))
                  (exec (dispatch (failed "planner crashed")) w))) = plan.
Proof.
  intros w plan.
  destruct (X10_events_after_a_final_one (completed plan)
              (running "formatter" "late") w) as (Hrun & _).
  destruct (X10_events_after_a_final_one (failed "planner crashed")
              (completed plan) w) as (_ & Hdone).
  destruct (Hrun eq_refl eq_refl) as (Hp & Ha & _).
  destruct (Hdone eq_refl eq_refl) as (He & Hp').
  repeat split; assumption.
Defined.

Lemma forEach_passed_over (lines : list string) (w : world) :
  Forall passed_over lines -> forEach processLine lines w = (inr tt, w).
Proof.
  induction 1 as [|l lines Hl _ IH]; [reflexivity|].
  simpl. now rewrite (processLine_not_a_frame _ _ Hl).
Qed.

(** X11. A stream that ends without a frame (no chunk at all, or only
    lines that do not begin with the prefix) is taken as it comes: no
    error is set and nothing is written to the console, there is no plan,
    and the agent and the message of the connecting state stay in the
    page state, with [loading] false. *)
Theorem X11_stream_without_frames (r : response) (texts : list string) (w : world)
    (Hinput : trim (projectInput (ui w)) <> "")
    (Hstatus : ok r = true)
    (Hbody : body r = Some (Stream texts None))
    (Hlines : Forall passed_over (flat_map (split LF) texts)) :
  handleSubmit (Responds r) w =
  (inr tt,
   World (AppState (projectInput (ui w)) false VNull VNull (VStr "system")
            (VStr "Connecting to agents..."))
         (Request endpoint "POST" "application/json" (projectInput (ui w))
            :: requests w)
         (List.length texts + 1 + reads w)
         (console w)).
Proof.
  rewrite (handleSubmit_body r texts None w Hinput Hstatus Hbody).
  unfold exec, lines_of. now rewrite (forEach_passed_over _ _ Hlines).
Qed.

Lemma X11_stream_without_frames_witness :
  submit (streaming []) (start "build") =
    World (AppState "build" false VNull VNull (VStr "system")
             (VStr "Connecting to agents..."))
          [Request endpoint "POST" "application/json" "build"] 1 [] /\
  ui (submit (streaming [": ping" ++ nl; "event: done" ++ nl ++ "data:{}"])
        (start "build")) =
    AppState "build" false VNull VNull (VStr "system")
      (VStr "Connecting to agents...").
Proof.
  unfold submit, exec, streaming. split.
  - rewrite (X11_stream_without_frames _ []).
    + reflexivity.
    + discriminate.
    + reflexivity.
    + reflexivity.
    + constructor.
  - rewrite (X11_stream_without_frames _
               [": ping" ++ nl; "event: done" ++ nl ++ "data:{}"]).
    + reflexivity.
    + discriminate.
    + reflexivity.
    + reflexivity.
    + repeat constructor.
Defined.

(** X12. Once a submit with a description has returned, nothing on the
    page says that work is going on, whatever the network did and also
    when the last event was a [running] one: the overlay is not visible,
    and the plan card does not show the working text. *)
Theorem X12_nothing_in_progress_after_submit (net : network) (w : world)
    (Hinput : trim (projectInput (ui w)) <> "") :
  JS.truthy (overlay_visible (ui (submit net w))) = false /\
  forall Graph b p text,
    fst (fst (App Graph (ui (submit net w)) b)) = inr p ->
    snd (outside_workflow p) <> Shown (Working text).
Proof.
  assert (Hl : loading (ui (submit net w)) = false).
  { unfold submit, exec.
    destruct (handleSubmit_outcome net w Hinput) as (w' & -> & _). reflexivity. }
  split.
  - unfold overlay_visible. now rewrite Hl.
  - intros Graph b p text. unfold App. rewrite Hl.
    destruct (JS.truthy (planData (ui (submit net w)))) eqn:Hp; rewrite ?Hp; simpl.
    + destruct (formatOutput (planData (ui (submit net w)))) as [e|pre]; simpl;
        [discriminate|].
      destruct (React.render_in ErrorBoundary.component b
                  (Graph (planData (ui (submit net w))))) as [[b' [e|shown]] log];
        [discriminate|].
      intros [= <-]. simpl. discriminate.
    + intros [= <-]. simpl. discriminate.
Qed.

Lemma X12_nothing_in_progress_after_submit_witness :
  let net := streaming [q "data: {'status':'running','agent':'planner','message':'b'}"] in
  currentAgent (ui (submit net (start "build"))) = VStr "planner" /\
  JS.truthy (overlay_visible (ui (submit net (start "build")))) = false.
Proof.
  intros net. split; [reflexivity|].
  apply (X12_nothing_in_progress_after_submit net (start "build")). discriminate.
Defined.

(** * Further properties of the renderer *)

(** X13. When [dependency_tasks] is there but is not an array (an object,
    a number, true, a string that is not empty) and does not have a
    [length] of 0, [WorkflowGraph] does not show the placeholder: it
    throws a TypeError, since there is no [map] to call. *)
Theorem X13_tasks_not_an_array (planData tasks : value)
    (Htasks : JS.prop planData "dependency_tasks" = tasks)
    (Hthere : JS.truthy tasks = true)
    (Hkind : forall items, tasks <> VArr items)
    (Hlength : length_is_0 tasks = false) :
  WorkflowGraph planData = inl (TypeError "tasks.map is not a function").
Proof.
  unfold WorkflowGraph.
  assert (Ht : JS.truthy planData = true).
  { apply (prop_truthy _ "dependency_tasks"). now rewrite Htasks. }
  rewrite falsy_truthy, Ht. simpl.
  rewrite !(get_not_nullish _ _ (truthy_not_nullish _ Ht)). simpl.
  rewrite Htasks, falsy_truthy, Hthere, Hlength. simpl.
  destruct tasks; try reflexivity. now elim (Hkind items).
Qed.

Lemma X13_tasks_not_an_array_witness :
  WorkflowGraph (VObj [("dependency_tasks", VStr "Design, Build")]) =
    inl (TypeError "tasks.map is not a function") /\
  WorkflowGraph (VObj [("dependency_tasks", VObj [("1", VStr "Design")])]) =
    inl (TypeError "tasks.map is not a function") /\
  WorkflowGraph (VObj [("dependency_tasks", VObj [("length", VNum (Number_of_N 0))])]) =
    inr (Placeholder "No tasks to visualize").
Proof.
  split; [|split].
  - apply (X13_tasks_not_an_array _ (VStr "Design, Build"));
      try reflexivity; discriminate.
  - apply (X13_tasks_not_an_array _ (VObj [("1", VStr "Design")]));
      try reflexivity; discriminate.
  - reflexivity.
Defined.

Lemma mapi_app_left {A B : Type} (f : A -> nat -> result B) (before : list A)
    (x : A) (after : list A) (index : nat) (ys : list B) (e : exn) :
  mapi f before index = inr ys ->
  f x (index + List.length before) = inl e ->
  mapi f (before ++ x :: after) index = inl e.
Proof.
  revert index ys. induction before as [|b before IH]; intros index ys Hb Hx.
  - simpl in *. rewrite Nat.add_0_r in Hx. now rewrite Hx.
  - simpl in *. destruct (f b index) as [e'|y]; [discriminate|]. simpl in *.
    destruct (mapi f before (S index)) as [e'|ys'] eqn:Hm; [discriminate|].
    rewrite (IH (S index) ys' Hm); [reflexivity|].
    now replace (S index + List.length before)
      with (index + S (List.length before)) by lia.
Qed.

(** For an array that is not empty, [WorkflowGraph] is the [map] over its
    items. *)
Lemma WorkflowGraph_array (planData : value) (items : list value) :
  JS.prop planData "dependency_tasks" = VArr items ->
  items <> [] ->
  WorkflowGraph planData =
  (nodes <-
     mapi (fun task index =>
             id <- JS.get task "id" ;;
             key <- React.key id ;;
             priority <- JS.get task "priority" ;;
             name <- JS.get task "name" ;;
             days <- JS.get task "estimated_duration_days" ;;
             category <- JS.get task "category" ;;
             ret (Node key (getPriorityColor priority) (index + 1) name days category
                    (index <? List.length items - 1)%nat))
          items 0 ;;
   ret (Column nodes)).
Proof.
  intros Hp Hne. unfold WorkflowGraph.
  assert (Ht : JS.truthy planData = true).
  { apply (prop_truthy _ "dependency_tasks"). now rewrite Hp. }
  rewrite falsy_truthy, Ht. simpl.
  rewrite !(get_not_nullish _ _ (truthy_not_nullish _ Ht)). simpl.
  rewrite Hp. destruct items as [|t l]; [contradiction|]. reflexivity.
Qed.

(** X14. The diagram is all or nothing: when the tasks before a task can
    be drawn and that task cannot, because it is null or because its [id]
    makes no key, [WorkflowGraph] throws and returns no node at all,
    whatever the tasks after it are. *)
Theorem X14_one_bad_task_fails_the_diagram (planData : value)
    (before : list value) (task : value) (after : list value) (e : exn)
    (Htasks : JS.prop planData "dependency_tasks" = VArr (before ++ task :: after))
    (Hbefore : Forall drawable before) :
  (JS.nullish task = true ->
   WorkflowGraph planData =
   inl (TypeError "Cannot read properties of null or undefined (reading 'id')")) /\
  (JS.nullish task = false ->
   React.key (JS.prop task "id") = inl e ->
   WorkflowGraph planData = inl e).
Proof.
  assert (Hne : (before ++ task :: after)%list <> []) by (destruct before; discriminate).
  rewrite (WorkflowGraph_array _ _ Htasks Hne).
  destruct (mapi_nodes (List.length (before ++ task :: after)) before 0 Hbefore)
    as (nodes & Hm & _).
  split.
  - intros Hn. erewrite mapi_app_left; [reflexivity | exact Hm |].
    unfold JS.get. rewrite Hn. reflexivity.
  - intros Hn Hk. erewrite mapi_app_left; [reflexivity | exact Hm |].
    rewrite !(get_not_nullish _ _ Hn). simpl. now rewrite Hk.
Qed.

Lemma X14_one_bad_task_fails_the_diagram_witness :
  let design := VObj [("id", VNum (Number_of_N 1)); ("priority", VStr "high")] in
  let odd := VObj [("id", VObj [("toString", VNull)])] in
  WorkflowGraph (VObj [("dependency_tasks", VArr [design; VNull; design])]) =
    inl (TypeError "Cannot read properties of null or undefined (reading 'id')") /\
  WorkflowGraph (VObj [("dependency_tasks", VArr [design; odd])]) =
    inl (TypeError "Cannot convert object to primitive value").
Proof.
  intros design odd.
  assert (Hd : Forall drawable [design]).
  { repeat constructor. eexists. reflexivity. }
  split.
  - apply (X14_one_bad_task_fails_the_diagram
             (VObj [("dependency_tasks", VArr [design; VNull; design])])
             [design] VNull [design] (TypeError "") eq_refl Hd).
    reflexivity.
  - apply (X14_one_bad_task_fails_the_diagram
             (VObj [("dependency_tasks", VArr [design; odd])])
             [design] odd [] (TypeError "Cannot convert object to primitive value")
             eq_refl Hd); reflexivity.
Defined.

Lemma mapi_steps (total : nat) (items : list value) (index : nat) (nodes : list node) :
  mapi (fun task index =>
          id <- JS.get task "id" ;;
          key <- React.key id ;;
          priority <- JS.get task "priority" ;;
          name <- JS.get task "name" ;;
          days <- JS.get task "estimated_duration_days" ;;
          category <- JS.get task "category" ;;
          ret (Node key (getPriorityColor priority) (index + 1) name days category
                 (index <? total - 1)%nat))
       items index = inr nodes ->
  map step nodes = seq (index + 1) (List.length items) /\
  map arrow nodes = map (fun i => (i <? total - 1)%nat) (seq index (List.length items)).
Proof.
  revert index nodes. induction items as [|task items IH]; intros index nodes H.
  - injection H as <-. split; reflexivity.
  - simpl in H.
    destruct (JS.get task "id") as [e|id]; [discriminate|]. simpl in H.
    destruct (React.key id) as [e|k]; [discriminate|]. simpl in H.
    destruct (JS.get task "priority") as [e|priority]; [discriminate|]. simpl in H.
    destruct (JS.get task "name") as [e|name]; [discriminate|]. simpl in H.
    destruct (JS.get task "estimated_duration_days") as [e|days]; [discriminate|].
    simpl in H.
    destruct (JS.get task "category") as [e|category]; [discriminate|]. simpl in H.
    match type of H with
    | match ?m with _ => _ end = _ => destruct m as [e|rest] eqn:Hm; [discriminate|]
    end.
    injection H as <-. destruct (IH (S index) rest Hm) as (Hs & Ha).
    simpl. rewrite Hs, Ha. split; [|reflexivity].
    now replace (S index + 1) with (S (index + 1)) by lia.
Qed.

Lemma map_ltb_seq (n a m : nat) :
  a + m <= n -> map (fun i => (i <? n)%nat) (seq a m) = List.repeat true m.
Proof.
  revert a. induction m as [|m IH]; intros a H; [reflexivity|].
  simpl. rewrite IH by lia.
  destruct (Nat.ltb_spec a n); [reflexivity | lia].
Qed.

(** X15. Whenever [WorkflowGraph] returns a column, [dependency_tasks] is
    an array with as many items as the column has nodes, and it is not
    empty; the nodes are numbered 1, 2, ... in their order, and every
    node but the last has the arrow below it, so there is one arrow less
    than there are nodes. *)
Theorem X15_numbers_and_arrows (planData : value) (nodes : list node)
    (Hcolumn : WorkflowGraph planData = inr (Column nodes)) :
  (exists items,
     JS.prop planData "dependency_tasks" = VArr items /\
     List.length items = List.length nodes) /\
  nodes <> [] /\
  map step nodes = seq 1 (List.length nodes) /\
  map arrow nodes = (List.repeat true (List.length nodes - 1) ++ [false])%list.
Proof.
  assert (Hinv : exists items,
            JS.prop planData "dependency_tasks" = VArr items /\ items <> []).
  { unfold WorkflowGraph in Hcolumn.
    destruct (JS.falsy planData) eqn:Hf; [discriminate Hcolumn|].
    assert (Hn : JS.nullish planData = false).
    { apply truthy_not_nullish. rewrite falsy_truthy in Hf.
      now apply negb_false_iff in Hf. }
    rewrite !(get_not_nullish _ _ Hn) in Hcolumn. simpl in Hcolumn.
    destruct (JS.prop planData "dependency_tasks") as [| |b|n|s|items|fields];
      simpl in Hcolumn;
      try (repeat (match type of Hcolumn with
                   | context [if ?c then _ else _] => destruct c
                   end; simpl in Hcolumn);
           discriminate Hcolumn).
    exists items. split; [reflexivity|]. intros ->. discriminate Hcolumn. }
  destruct Hinv as (items & Hp & Hne).
  rewrite (WorkflowGraph_array _ _ Hp Hne) in Hcolumn.
  match type of Hcolumn with
  | bind ?m _ = _ => destruct m as [e|nodes'] eqn:Hm; [discriminate Hcolumn|]
  end.
  injection Hcolumn as <-.
  destruct (mapi_steps _ _ _ _ Hm) as (Hs & Ha).
  assert (Hlen : List.length nodes' = List.length items).
  { rewrite <- (List.length_map step), Hs. apply List.length_seq. }
  split; [exists items; split; [exact Hp | now rewrite Hlen]|].
  split; [intros ->; destruct items; [contradiction | discriminate]|].
  rewrite Hs, Ha, Hlen. split; [reflexivity|].
  destruct items as [|t l]; [contradiction|].
  simpl List.length. replace (S (List.length l) - 1) with (List.length l) by lia.
  rewrite seq_S, List.map_app, map_ltb_seq by lia. simpl.
  destruct (Nat.ltb_spec (List.length l) (List.length l)); [lia | reflexivity].
Qed.

Lemma X15_numbers_and_arrows_witness :
  let task (id : N) (priority : string) :=
    VObj [("id", VNum (Number_of_N id)); ("priority", VStr priority)] in
  exists nodes,
    WorkflowGraph
      (VObj [("dependency_tasks",
              VArr [task 7%N "low"; task 7%N "high"; task 3%N "x"])]) =
      inr (Column nodes) /\
    map step nodes = [1; 2; 3] /\
    map arrow nodes = [true; true; false].
Proof.
  intros task.
  destruct (WorkflowGraph
              (VObj [("dependency_tasks", VArr [task 7%N "low"; task 7%N "high"; task 3%N "x"])]))
    as [e|[text|nodes]] eqn:H; try discriminate.
  exists nodes. split; [reflexivity|].
  destruct (X15_numbers_and_arrows _ nodes H) as ((items & Hp & Hlen) & _ & Hs & Ha).
  injection Hp as <-. simpl in Hlen. rewrite <- Hlen in Hs, Ha. split; assumption.
Defined.

Lemma ToString_primitive (v : value) :
  primitive v = true -> exists text, JS.ToString v = inr text.
Proof.
  destruct v as [| |[|]|n|s|items|fields]; simpl; intros H;
    try discriminate; eauto.
Qed.

(** X16. [formatOutput] does not throw on a plan of the expected shape:
    when the two numbers of the summary, the markdown report and the
    Mermaid source are not arrays or objects (numbers, strings, booleans,
    null, or not there), it returns a text. *)
Theorem X16_formatOutput_returns_for_plain_fields (data : value)
    (Htotal : primitive (JS.prop (JS.prop (JS.prop data "formatted_output")
                                    "summary") "total_tasks") = true)
    (Hdays : primitive (JS.prop (JS.prop (JS.prop data "formatted_output")
                                   "summary") "estimated_duration_days") = true)
    (Hmarkdown : primitive (JS.prop (JS.prop data "formatted_output")
                              "markdown") = true)
    (Hgantt : primitive (JS.prop (JS.prop data "formatted_output")
                           "mermaid_gantt") = true) :
  exists text, formatOutput data = inr text.
Proof.
  destruct (JS.truthy data && JS.truthy (JS.prop data "formatted_output")) eqn:H.
  - rewrite (formatOutput_sections _ H).
    unfold sections, summary_section, markdown_section, gantt_section.
    destruct (ToString_primitive _ Htotal) as (t & Ht).
    destruct (ToString_primitive _ Hdays) as (d & Hd).
    destruct (ToString_primitive _ Hmarkdown) as (m & Hm).
    destruct (ToString_primitive _ Hgantt) as (g & Hg).
    rewrite Ht, Hd, Hm, Hg.
    destruct (JS.truthy (JS.prop (JS.prop data "formatted_output") "summary")),
             (JS.truthy (JS.prop (JS.prop data "formatted_output") "markdown")),
             (JS.truthy (JS.prop (JS.prop data "formatted_output") "mermaid_gantt"));
      simpl; eauto.
  - rewrite (formatOutput_no_output _ H). eauto.
Qed.

Lemma X16_formatOutput_returns_for_plain_fields_witness :
  exists text,
    formatOutput
      (VObj [("formatted_output",
              VObj [("summary", VObj [("total_tasks", VStr "two")]);
                    ("markdown", VBool true)])]) = inr text.
Proof.
  apply X16_formatOutput_returns_for_plain_fields; reflexivity.
Defined.

(** X17. The report is outside the error boundary: [App] throws exactly
    when there is a plan, [loading] is false and [formatOutput] throws on
    the plan, and then it throws that error whatever the diagram
    component does and whatever the state of the boundary is.  An error
    of the diagram alone never makes [App] throw. *)
Theorem X17_app_throws_only_for_the_report (Graph : value -> result element)
    (s : app_state) (b : ErrorBoundary.state) (e : exn) :
  fst (fst (App Graph s b)) = inl e <->
  JS.truthy (planData s) = true /\ loading s = false /\
  formatOutput (planData s) = inl e.
Proof.
  unfold App. destruct (JS.truthy (planData s)) eqn:Hp; rewrite ?Hp.
  - destruct (loading s); simpl.
    + destruct b as [[|] eb]; destruct (Graph (planData s)); simpl;
        split; [discriminate | intros (_ & H & _); discriminate H
               | discriminate | intros (_ & H & _); discriminate H
               | discriminate | intros (_ & H & _); discriminate H
               | discriminate | intros (_ & H & _); discriminate H].
    + destruct (formatOutput (planData s)) as [e'|pre]; simpl.
      * split; [intros [= ->]; auto | intros (_ & _ & [= ->]); reflexivity].
      * destruct b as [[|] eb]; destruct (Graph (planData s)); simpl;
          split; [discriminate | intros (_ & _ & H); discriminate H
                 | discriminate | intros (_ & _ & H); discriminate H
                 | discriminate | intros (_ & _ & H); discriminate H
                 | discriminate | intros (_ & _ & H); discriminate H].
  - simpl. destruct (loading s); simpl;
      split; [discriminate | intros (H & _); discriminate H
             | discriminate | intros (H & _); discriminate H].
Qed.

Lemma X17_app_throws_only_for_the_report_witness :
  let plan :=
    VObj [("formatted_output",
           VObj [("markdown", VObj [("toString", VStr "x")])])] in
  let s := AppState "build" false plan VNull VNull (VStr "") in
  fst (fst (App WorkflowGraph s ErrorBoundary.constructor)) =
  inl (TypeError "Cannot convert object to primitive value").
Proof.
  intros plan s.
  apply (X17_app_throws_only_for_the_report WorkflowGraph s ErrorBoundary.constructor).
  repeat split.
Defined.

(** * The lookups of the overlay *)

Lemma same_agents (k : string) :
  AgentOverlay.assoc k AgentOverlay.emojiMap = None <->
  AgentOverlay.assoc k AgentOverlay.colorMap = None.
Proof.
  unfold AgentOverlay.emojiMap, AgentOverlay.colorMap. simpl.
  destruct (String.eqb k "system"); [split; discriminate|].
  destruct (String.eqb k "planner"); [split; discriminate|].
  destruct (String.eqb k "timeline"); [split; discriminate|].
  destruct (String.eqb k "dependency"); [split; discriminate|].
  destruct (String.eqb k "formatter"); [split; discriminate|].
  split; reflexivity.
Qed.

Lemma lookup_or_text (table : list (string * string)) (fallback : string)
    (key : value) (k : string) :
  JS.ToString key = inr k ->
  AgentOverlay.lookup_or table fallback key =
  match AgentOverlay.assoc k table with
  | Some t => inr (AgentOverlay.Text (if String.eqb t "" then fallback else t))
  | None =>
      if AgentOverlay.member k AgentOverlay.Object_prototype
      then inr (AgentOverlay.Inherited k)
      else inr (AgentOverlay.Text fallback)
  end.
Proof.
  intros H. unfold AgentOverlay.lookup_or. rewrite H. simpl.
  destruct (AgentOverlay.assoc k table); [reflexivity|].
  destruct (AgentOverlay.member k AgentOverlay.Object_prototype); reflexivity.
Qed.

Lemma table_texts (k t : string) :
  AgentOverlay.assoc k AgentOverlay.colorMap = Some t \/
  AgentOverlay.assoc k AgentOverlay.emojiMap = Some t ->
  String.eqb t "" = false /\
  AgentOverlay.member k AgentOverlay.Object_prototype = false.
Proof.
  unfold AgentOverlay.emojiMap, AgentOverlay.colorMap. simpl.
  destruct (String.eqb_spec k "system"); [subst; intros [[= <-]|[= <-]]; split; reflexivity|].
  destruct (String.eqb_spec k "planner"); [subst; intros [[= <-]|[= <-]]; split; reflexivity|].
  destruct (String.eqb_spec k "timeline"); [subst; intros [[= <-]|[= <-]]; split; reflexivity|].
  destruct (String.eqb_spec k "dependency"); [subst; intros [[= <-]|[= <-]]; split; reflexivity|].
  destruct (String.eqb_spec k "formatter"); [subst; intros [[= <-]|[= <-]]; split; reflexivity|].
  intros [H|H]; discriminate H.
Qed.

(** X18. [getAgentEmoji] and [getAgentColor] look the agent up by its
    text, and know the same five agents.  For any other agent they give
    the fallback (the robot, #6b7280), unless the text names a member of
    [Object.prototype] (constructor, toString, ...): then the lookup finds
    that inherited member, and neither an emoji nor a colour comes
    back. *)
Theorem X18_agent_lookups (agent : value) (k : string)
    (Hkey : JS.ToString agent = inr k) :
  (forall color,
     AgentOverlay.assoc k AgentOverlay.colorMap = Some color ->
     AgentOverlay.getAgentColor agent = inr (AgentOverlay.Text color) /\
     exists emoji,
       AgentOverlay.assoc k AgentOverlay.emojiMap = Some emoji /\
       AgentOverlay.getAgentEmoji agent = inr (AgentOverlay.Text emoji)) /\
  (AgentOverlay.assoc k AgentOverlay.colorMap = None ->
   AgentOverlay.member k AgentOverlay.Object_prototype = false ->
   AgentOverlay.getAgentColor agent = inr (AgentOverlay.Text "#6b7280") /\
   AgentOverlay.getAgentEmoji agent = inr (AgentOverlay.Text AgentOverlay.robot)) /\
  (AgentOverlay.member k AgentOverlay.Object_prototype = true ->
   AgentOverlay.getAgentColor agent = inr (AgentOverlay.Inherited k) /\
   AgentOverlay.getAgentEmoji agent = inr (AgentOverlay.Inherited k)).
Proof.
  unfold AgentOverlay.getAgentColor, AgentOverlay.getAgentEmoji.
  rewrite !(lookup_or_text _ _ _ _ Hkey).
  split; [|split].
  - intros color Hc.
    destruct (AgentOverlay.assoc k AgentOverlay.emojiMap) as [emoji|] eqn:He.
    + rewrite Hc.
      destruct (table_texts k color (or_introl Hc)) as (-> & _).
      destruct (table_texts k emoji (or_intror He)) as (-> & _).
      split; [reflexivity|]. exists emoji. split; reflexivity.
    + apply same_agents in He. rewrite He in Hc. discriminate.
  - intros Hc Hm. rewrite Hc, (proj2 (same_agents k) Hc), Hm. split; reflexivity.
  - intros Hm.
    assert (Hc : AgentOverlay.assoc k AgentOverlay.colorMap = None).
    { destruct (AgentOverlay.assoc k AgentOverlay.colorMap) as [t|] eqn:Hc;
        [|reflexivity].
      destruct (table_texts k t (or_introl Hc)) as (_ & Hno).
      rewrite Hno in Hm. discriminate. }
    rewrite Hc, (proj2 (same_agents k) Hc), Hm. split; reflexivity.
Qed.

Lemma X18_agent_lookups_witness :
  AgentOverlay.getAgentColor (VStr "timeline") = inr (AgentOverlay.Text "#06b6d4") /\
  AgentOverlay.getAgentColor (VStr "reviewer") = inr (AgentOverlay.Text "#6b7280") /\
  AgentOverlay.getAgentEmoji (VNum (Number_of_N 5)) =
    inr (AgentOverlay.Text AgentOverlay.robot) /\
  AgentOverlay.getAgentColor (VStr "constructor") =
    inr (AgentOverlay.Inherited "constructor").
Proof.
  destruct (X18_agent_lookups (VStr "timeline") "timeline" eq_refl) as (Hknown & _).
  destruct (X18_agent_lookups (VStr "reviewer") "reviewer" eq_refl) as (_ & Hother & _).
  destruct (X18_agent_lookups (VNum (Number_of_N 5)) "5" eq_refl) as (_ & Hfive & _).
  destruct (X18_agent_lookups (VStr "constructor") "constructor" eq_refl)
    as (_ & _ & Hproto).
  split; [apply (Hknown "#06b6d4" eq_refl)|].
  split; [apply (Hother eq_refl eq_refl)|].
  split; [apply (Hfive eq_refl eq_refl)|].
  apply (Hproto eq_refl).
Defined.

(** * The form and the panel *)

(** X19. While the boundary holds an error the workflow card shows the
    panel, whatever the diagram component would return now, also for a
    plan that has changed and would render: the children are not
    rendered, the state of the boundary stays and nothing is written to
    the console.  Only the button of the panel resets it. *)
Theorem X19_panel_stays_until_reset (Graph : value -> result element)
    (s : app_state) (b : ErrorBoundary.state) (text : string)
    (Hplan : JS.truthy (planData s) = true)
    (Hreport : loading s = false -> formatOutput (planData s) = inr text)
    (Herror : ErrorBoundary.hasError b = true) :
  exists p,
    App Graph s b = (inr p, b, []) /\
    workflow_card p =
    Some (React.Fallback
            (ErrorBoundary.Panel "Something went wrong with the visualization"
               (option_map message (ErrorBoundary.error b)) "Try Again"
               ErrorBoundary.constructor)).
Proof.
  unfold App. rewrite !Hplan. destruct b as [has eb]. simpl in Herror. subst has.
  destruct (loading s); simpl.
  - eexists. split; reflexivity.
  - rewrite (Hreport eq_refl). simpl. eexists. split; reflexivity.
Qed.

Lemma X19_panel_stays_until_reset_witness :
  let good :=
    VObj [("dependency_tasks", VArr [VObj [("id", VNum (Number_of_N 1))]])] in
  let s := AppState "build" false good VNull VNull (VStr "") in
  let held := ErrorBoundary.getDerivedStateFromError (TypeError "earlier") in
  (exists nodes, WorkflowGraph good = inr (Column nodes)) /\
  exists p,
    App WorkflowGraph s held = (inr p, held, []) /\
    workflow_card p =
    Some (React.Fallback
            (ErrorBoundary.Panel "Something went wrong with the visualization"
               (Some "earlier") "Try Again" ErrorBoundary.constructor)).
Proof.
  intros good s held. split; [eexists; reflexivity|].
  apply (X19_panel_stays_until_reset WorkflowGraph s held "No output available");
    reflexivity.
Defined.

(** X20. Whenever the button of the form is enabled, a click sends
    exactly one request with the description, whatever the network does;
    and when the submit has returned the button is enabled again with its
    idle label, the text area is enabled and the description is
    unchanged: the form is usable again after every outcome. *)
Theorem X20_form_usable_again (net : network) (w : world)
    (Henabled : disabled (submit_button (ui w)) = false) :
  requests (submit net w) =
    Request endpoint "POST" "application/json" (projectInput (ui w)) :: requests w /\
  submit_button (ui (submit net w)) = Button false "Generate Plan" /\
  textarea_disabled (ui (submit net w)) = false /\
  projectInput (ui (submit net w)) = projectInput (ui w).
Proof.
  unfold submit_button in Henabled. simpl in Henabled.
  apply orb_false_elim in Henabled. destruct Henabled as (_ & Hblank).
  assert (Hin : trim (projectInput (ui w)) <> "").
  { intros H. rewrite H in Hblank. discriminate. }
  unfold submit, exec.
  destruct (handleSubmit_outcome net w Hin) as (w' & -> & Hrq & Hsame).
  unfold submit_button, textarea_disabled. simpl.
  rewrite Hrq, Hsame, Hblank. repeat split.
Qed.

Lemma X20_form_usable_again_witness :
  let net := Responds (Response 500 None) in
  disabled (submit_button (initial "   ")) = true /\
  submit_button (ui (submit net (start "build"))) = Button false "Generate Plan" /\
  requests (submit net (start "build")) =
    [Request endpoint "POST" "application/json" "build"].
Proof.
  intros net. split; [reflexivity|].
  destruct (X20_form_usable_again net (start "build") eq_refl)
    as (Hrq & Hbutton & _).
  split; assumption.
Defined.
